(** * cloud-autopkg-runner: the recipe lifecycle engine

    A shallow embedding of [cloud_autopkg_runner/settings.py] and
    [cloud_autopkg_runner/recipe.py], and the properties of the
    specification that are decided by them.

    Conventions of the embedding.
    - A Python [dict] with string keys is a [gmap string _]; a subscript
      [d[k]] on a missing key raises [KeyError].
    - A [pathlib.Path] is the list of its components; [p / name] appends a
      component.
    - A method that may raise returns a [Res]; code that reads or changes
      the world is a function from the state to a [Res] and the next state.
    - Modules of the repository that the two files import (the shell
      runner, the report reader, the cache store, the file-attribute
      helpers, the AutoPkg preferences), the decoders, the clock and the
      directory walk are fields of the class [Collaborators]: nothing is
      assumed about them.
    - Every call of the shell runner, the report reader, the cache store
      and the file-attribute helpers is recorded in a trace, so that "is
      invoked once" and "is invoked before" are statements about a list.
    - The [logger] calls return nothing and touch no state of the model;
      they are left out. *)

From Stdlib Require Import ZArith Lia Ascii String.
From stdpp Require Import base option list strings gmap fin_maps pretty.

Set Warnings "-register-all".
Open Scope string_scope.
Open Scope list_scope.

(** ** Python values, exceptions and results *)

(** The values a YAML or property-list decoder hands back, and the values
    of enumeration members. *)
Inductive PyVal :=
| PNone
| PBool (b : bool)
| PInt (z : Z)
| PStr (s : string)
| PList (l : list PyVal)
| PDict (m : gmap string PyVal).

(** A path is the list of its components. *)
Definition Path := list string.

#[global] Instance Path_eq_dec : EqDecision Path := _.

(** [PurePath.name], [PurePath.parent] and the [/] operator. *)
Definition path_name (p : Path) : string := List.last p "".
Definition path_parent (p : Path) : Path := removelast p.
Definition path_join (p : Path) (name : string) : Path := p ++ [name].

(** [str(path)]: the path without components is [.], and a root
    component is its own separator. *)
Definition path_str (p : Path) : string :=
  match p with
  | [] => "."
  | "/" :: rest => "/" +:+ String.concat "/" rest
  | "//" :: rest => "//" +:+ String.concat "/" rest
  | _ => String.concat "/" p
  end.

(** [Path(s)] for a string with [/] separators: empty and [.] components
    are dropped; the root is [/], and [//] for exactly two leading
    slashes. *)
Fixpoint split_on (c : ascii) (s : string) : list string :=
  match s with
  | EmptyString => [""]
  | String a s' =>
      if Ascii.eqb a c then "" :: split_on c s'
      else match split_on c s' with
           | x :: xs => String a x :: xs
           | [] => [String a ""]
           end
  end.

Definition path_of_str (s : string) : Path :=
  (if String.prefix "//" s && negb (String.prefix "///" s) then ["//"]
   else if String.prefix "/" s then ["/"] else [])
  ++ List.filter (λ x, negb (String.eqb x "" || String.eqb x ".")) (split_on "/"%char s).

(** The exceptions of [cloud_autopkg_runner.exceptions] that the two files
    raise, the built-in ones they can meet, and [Foreign] for an exception
    that comes out of a collaborator or a library, named by its class. *)
Inductive exn :=
| KeyError (key : string)
| TypeError (msg : string)
| FileNotFoundError (p : Path)
| IsADirectoryError (p : Path)
| FileExistsError (p : Path)
| NotADirectoryError (p : Path)
| RecipeLookupException (recipe_name : string)
| RecipeFormatException (suffix : string)
| RecipeInputException (p : Path)
| InvalidPlistContents (p : Path)
| InvalidYamlContents (p : Path)
| SettingsValidationError (field_name msg : string)
| Foreign (cls : string).

Inductive Res (A : Type) :=
| Ok (a : A)
| Raise (e : exn).
Arguments Ok {A} a.
Arguments Raise {A} e.

(** State and exception monad: a raise keeps the state reached so far. *)
Definition ST (S A : Type) : Type := S → Res A * S.

Definition ret {S A} (a : A) : ST S A := λ s, (Ok a, s).
Definition raise {S A} (e : exn) : ST S A := λ s, (Raise e, s).
Definition bind {S A B} (m : ST S A) (k : A → ST S B) : ST S B :=
  λ s, match m s with
       | (Ok a, s') => k a s'
       | (Raise e, s') => (Raise e, s')
       end.
Definition get {S} : ST S S := λ s, (Ok s, s).
Definition put {S} (s : S) : ST S unit := λ _, (Ok tt, s).
Definition lift_res {S A} (r : Res A) : ST S A := λ s, (r, s).

Declare Scope st_scope.
Delimit Scope st_scope with st.
Notation "x <- m ;; k" := (bind m (λ x, k))
  (at level 100, m at next level, right associativity) : st_scope.
Notation "m ;;; k" := (bind m (λ _, k))
  (at level 100, right associativity) : st_scope.
Open Scope st_scope.

(** ** settings.py *)

Module Settings.

(** The attributes [__init__] sets on the instance (lines 81-85). *)
Record SettingsImpl := {
  _cache_file : Path;
  _log_file : option Path;
  _max_concurrency : Z;
  _report_dir : Path;
  _verbosity_level : Z;
}.

(** The keyword arguments of a constructor call; [None] is a keyword that
    was not passed. *)
Record Kwargs := {
  kw_cache_file : option Path;
  kw_log_file : option (option Path);
  kw_max_concurrency : option Z;
  kw_report_dir : option Path;
  kw_verbosity_level : option Z;
}.

Definition no_kwargs : Kwargs :=
  {| kw_cache_file := None; kw_log_file := None; kw_max_concurrency := None;
     kw_report_dir := None; kw_verbosity_level := None |}.

Definition has_kwargs (kw : Kwargs) : bool :=
  bool_decide (is_Some (kw_cache_file kw)) || bool_decide (is_Some (kw_log_file kw))
  || bool_decide (is_Some (kw_max_concurrency kw))
  || bool_decide (is_Some (kw_report_dir kw))
  || bool_decide (is_Some (kw_verbosity_level kw)).

(** The class and its instances. An object is an address in [heap]. Its
    attributes are [None] as it comes out of [object.__new__], where
    [hasattr(self, "_initialized")] is false, and [Some _] once lines 81-86
    have set the five fields and [_initialized] together. [_instance] is
    the class attribute of line 34. *)
Record ClassState := {
  heap : gmap nat (option SettingsImpl);
  _instance : option nat;
}.

Definition initial : ClassState := {| heap := ∅; _instance := None |}.

(** Lines 36-53. An instance defines neither [__bool__] nor [__len__], so
    [not cls._instance] is true exactly on [None]. [object.__new__]
    refuses extra arguments for a class that overrides [__new__]. *)
Definition __new__ (kw : Kwargs) : ST ClassState nat :=
  cs <- get ;;
  match _instance cs with
  | Some o => ret o
  | None =>
      if has_kwargs kw then
        raise (TypeError "object.__new__() takes exactly one argument (the type to instantiate)")
      else
        let o := fresh (dom (heap cs)) in
        put {| heap := <[o := None]> (heap cs); _instance := Some o |} ;;;
        ret o
  end.

(** Lines 55-86, with the defaults of the signature. *)
Definition __init__ (self : nat) (kw : Kwargs) : ST ClassState unit :=
  cs <- get ;;
  match heap cs !! self with
  | Some None =>
      let fields :=
        {| _cache_file := default ["metadata_cache.json"] (kw_cache_file kw);
           _log_file := default None (kw_log_file kw);
           _max_concurrency := default 10%Z (kw_max_concurrency kw);
           _report_dir := default ["recipe_reports"] (kw_report_dir kw);
           _verbosity_level := default 0%Z (kw_verbosity_level kw) |} in
      put {| heap := <[self := Some fields]> (heap cs); _instance := _instance cs |}
  | _ => ret tt
  end.

(** A constructor call [SettingsImpl(cache_file=..., ...)]: [__new__], then [__init__] on what it
    returned. *)
Definition construct (kw : Kwargs) : ST ClassState nat :=
  self <- __new__ kw ;;
  __init__ self kw ;;;
  ret self.

(** Reading the fields of an instance (the property getters). *)
Definition fields_of (self : nat) (cs : ClassState) : option SettingsImpl :=
  mjoin (heap cs !! self).

(** Lines 238-271. *)
Definition _validate_integer_is_positive (field_name : string) (value : Z) : Res unit :=
  if (value <? 1)%Z then Raise (SettingsValidationError field_name "Must be a positive integer")
  else Ok tt.

Definition _validate_integer_is_not_negative (field_name : string) (value : Z) : Res unit :=
  if (value <? 0)%Z then Raise (SettingsValidationError field_name "Must not be negative")
  else Ok tt.

(** The setters with validation (lines 138-149 and 179-190), on the fields. *)
Definition set_max_concurrency (value : Z) (s : SettingsImpl) : Res SettingsImpl :=
  match _validate_integer_is_positive "max_concurrency" value with
  | Raise e => Raise e
  | Ok _ =>
      Ok {| _cache_file := _cache_file s; _log_file := _log_file s;
            _max_concurrency := value; _report_dir := _report_dir s;
            _verbosity_level := _verbosity_level s |}
  end.

Definition set_verbosity_level (value : Z) (s : SettingsImpl) : Res SettingsImpl :=
  match _validate_integer_is_not_negative "verbosity_level" value with
  | Raise e => Raise e
  | Ok _ =>
      Ok {| _cache_file := _cache_file s; _log_file := _log_file s;
            _max_concurrency := _max_concurrency s; _report_dir := _report_dir s;
            _verbosity_level := value |}
  end.

(** Lines 232-236: a [str] becomes a [Path], a [Path] stays. *)
Inductive StrOrPath :=
| IsStr (s : string)
| IsPath (p : Path).

Definition _convert_to_path (value : StrOrPath) : Path :=
  match value with
  | IsStr s => path_of_str s
  | IsPath p => p
  end.

(** The setters of the three paths (lines 97-105, 116-127, 160-168). *)
Definition set_cache_file (value : StrOrPath) (s : SettingsImpl) : SettingsImpl :=
  {| _cache_file := _convert_to_path value; _log_file := _log_file s;
     _max_concurrency := _max_concurrency s; _report_dir := _report_dir s;
     _verbosity_level := _verbosity_level s |}.

Definition set_log_file (value : option StrOrPath) (s : SettingsImpl) : SettingsImpl :=
  {| _cache_file := _cache_file s; _log_file := _convert_to_path <$> value;
     _max_concurrency := _max_concurrency s; _report_dir := _report_dir s;
     _verbosity_level := _verbosity_level s |}.

Definition set_report_dir (value : StrOrPath) (s : SettingsImpl) : SettingsImpl :=
  {| _cache_file := _cache_file s; _log_file := _log_file s;
     _max_concurrency := _max_concurrency s; _report_dir := _convert_to_path value;
     _verbosity_level := _verbosity_level s |}.

(** A setter call on the instance [self]. *)
Definition update_fields (self : nat) (f : SettingsImpl → Res SettingsImpl) : ST ClassState unit :=
  cs <- get ;;
  match heap cs !! self with
  | Some (Some fields) =>
      fields' <- lift_res (f fields) ;;
      put {| heap := <[self := Some fields']> (heap cs); _instance := _instance cs |}
  | _ => raise (Foreign "AttributeError")
  end.

(** Lines 192-206. *)
Definition verbosity_int (s : SettingsImpl) (delta : Z) : Z :=
  let level := (_verbosity_level s + delta)%Z in
  if (level <=? 0)%Z then 0%Z else level.

Fixpoint repeat_v (n : nat) : string :=
  match n with
  | O => ""
  | S n => "v" +:+ repeat_v n
  end.

(** Lines 208-230. *)
Definition verbosity_str (s : SettingsImpl) (delta : Z) : string :=
  let level := (_verbosity_level s + delta)%Z in
  if (level <=? 0)%Z then "" else "-" +:+ repeat_v (Z.to_nat level).

(** A constructor call that passes every keyword. *)
Definition every_keyword : Kwargs :=
  {| kw_cache_file := Some ["other.json"]; kw_log_file := Some (Some ["run.log"]);
     kw_max_concurrency := Some 3%Z; kw_report_dir := Some ["elsewhere"];
     kw_verbosity_level := Some 2%Z |}.

(** Line 275: importing the module constructs the singleton, without
    arguments, and binds it to [settings]. *)
Definition module_import : Res nat * ClassState := construct no_kwargs initial.
Definition module_state : ClassState := module_import.2.
Definition settings_object : nat :=
  match module_import.1 with
  | Ok o => o
  | Raise _ => 0%nat
  end.

(** What a program does with the class after the import: it calls the
    constructor, or assigns to a property of [settings]. *)
Inductive Action :=
| Construct (kw : Kwargs)
| SetCacheFile (value : StrOrPath)
| SetLogFile (value : option StrOrPath)
| SetMaxConcurrency (value : Z)
| SetReportDir (value : StrOrPath)
| SetVerbosityLevel (value : Z).

Definition perform (a : Action) : ST ClassState unit :=
  match a with
  | Construct kw => construct kw ;;; ret tt
  | SetCacheFile value => update_fields settings_object (λ s, Ok (set_cache_file value s))
  | SetLogFile value => update_fields settings_object (λ s, Ok (set_log_file value s))
  | SetMaxConcurrency value => update_fields settings_object (set_max_concurrency value)
  | SetReportDir value => update_fields settings_object (λ s, Ok (set_report_dir value s))
  | SetVerbosityLevel value => update_fields settings_object (set_verbosity_level value)
  end.

(** The class state after a sequence of actions; an action that raises
    leaves the state it had reached. *)
Definition after (actions : list Action) (cs : ClassState) : ClassState :=
  fold_left (λ cs a, (perform a cs).2) actions cs.

(** What a class state looks like after the import: one object, the one
    the import created, initialised, with validated numbers. *)
Definition well_formed (cs : ClassState) : Prop :=
  _instance cs = Some settings_object
  ∧ ∃ f, heap cs = {[ settings_object := Some f ]}
         ∧ (1 ≤ _max_concurrency f)%Z ∧ (0 ≤ _verbosity_level f)%Z.

End Settings.

(** ** pathlib and the file system *)

(** The name cut at its last dot: [(name[:i], name[i:])] for
    [i = name.rfind('.')], and [None] when the name has no dot. *)
Fixpoint split_last_dot (s : string) : option (string * string) :=
  match s with
  | EmptyString => None
  | String c s' =>
      match split_last_dot s' with
      | Some (a, b) => Some (String c a, b)
      | None => if Ascii.eqb c "."%char then Some ("", s) else None
      end
  end.

(** [PurePath.suffix] and [PurePath.stem] of a file name: the last dot
    counts when [0 < i < len(name) - 1]. *)
Definition name_suffix (name : string) : string :=
  match split_last_dot name with
  | Some (a, b) => if String.eqb a "" || String.eqb b "." then "" else b
  | None => ""
  end.

Definition name_stem (name : string) : string :=
  match split_last_dot name with
  | Some (a, b) => if String.eqb a "" || String.eqb b "." then name else a
  | None => name
  end.

Definition path_suffix (p : Path) : string := name_suffix (path_name p).
Definition path_stem (p : Path) : string := name_stem (path_name p).

(** [PurePath.with_stem(stem)] is [with_name(stem + suffix)]. *)
Definition with_name (p : Path) (name : string) : Path := path_join (path_parent p) name.
Definition with_stem (p : Path) (stem : string) : Path := with_name p (stem +:+ path_suffix p).

(** [str.endswith]. *)
Definition ends_with (s suffix : string) : bool :=
  let n := String.length s in
  let k := String.length suffix in
  (k <=? n)%nat && String.eqb (substring (n - k) k s) suffix.

(** A disk: what exists at a path. *)
Inductive Node :=
| File (contents : string)
| Dir.

Definition FS := gmap Path Node.

(** [Path.exists()]. *)
Definition path_exists (fs : FS) (p : Path) : bool := bool_decide (is_Some (fs !! p)).

(** [Path.read_text()]. *)
Definition read_text (fs : FS) (p : Path) : Res string :=
  match fs !! p with
  | Some (File c) => Ok c
  | Some Dir => Raise (IsADirectoryError p)
  | None => Raise (FileNotFoundError p)
  end.

(** The non-empty prefixes of a path, shortest first: its ancestors and
    itself. *)
Definition ancestors_and_self (p : Path) : list Path :=
  (λ n, take (S n) p) <$> seq 0 (length p).

(** [Path.mkdir(parents=True, exist_ok=True)] on [target]: every missing
    ancestor and the path itself become directories; a file in the way is
    an error of [os.mkdir(target)], which names [target]. *)
Fixpoint mkdir_each (target : Path) (ps : list Path) (fs : FS) : Res unit * FS :=
  match ps with
  | [] => (Ok tt, fs)
  | q :: ps' =>
      match fs !! q with
      | Some Dir => mkdir_each target ps' fs
      | Some (File _) =>
          (Raise (if ps' is [] then FileExistsError target else NotADirectoryError target), fs)
      | None => mkdir_each target ps' (<[q := Dir]> fs)
      end
  end.

Definition mkdir_parents_exist_ok (p : Path) (fs : FS) : Res unit * FS :=
  mkdir_each p (ancestors_and_self p) fs.

(** ** The data of recipe.py *)

(** Lines 69-81. *)
Inductive RecipeFormat := YAML | PLIST.

(** The [DownloadMetadata] and [RecipeCache] dictionaries that lines
    385-388 and 417-422 build. *)
Record DownloadMetadata := {
  etag : option string;
  file_size : option Z;
  last_modified : option string;
  file_path : string;
}.

Record RecipeCache := {
  timestamp : string;
  metadata : list DownloadMetadata;
}.

(** Modelled from the spec: [ConsolidatedReport] of
    [cloud_autopkg_runner.recipe_report], which is not among the sources.
    The spec (3) gives it four sections: the steps that failed, the
    artifacts downloaded, the packages built and the imports; recipe.py
    reads [downloaded_items], a list of string dictionaries. *)
Record ConsolidatedReport := {
  failed_items : list (gmap string string);
  downloaded_items : list (gmap string string);
  pkg_builds : list (gmap string string);
  munki_imports : list (gmap string string);
}.

(** What a decoder ([yaml.safe_load], [plistlib.loads]) does with a
    document: a value, the exception class its caller catches
    ([yaml.YAMLError] and its subclasses, [plistlib.InvalidFileException]),
    or an exception of another class. *)
Inductive Decoded :=
| DecValue (v : PyVal)
| DecInvalid
| DecOther (cls : string).

(** *** Enumerations *)

(** A class body of an [enum.Enum]: names with [auto()] or a literal. *)
Inductive EnumRhs :=
| EAuto
| ELit (v : PyVal).

(** A member: its canonical name and its value. *)
Record EnumMember := {
  member_name : string;
  value : PyVal;
}.

(** Python's [==] on the values used here: [bool] is a subclass of [int],
    so [True == 1] and [False == 0]. *)
Definition py_num (v : PyVal) : option Z :=
  match v with
  | PBool b => Some (if b then 1 else 0)%Z
  | PInt z => Some z
  | _ => None
  end.

Definition py_eq (a b : PyVal) : bool :=
  match py_num a, py_num b with
  | Some x, Some y => (x =? y)%Z
  | _, _ =>
      match a, b with
      | PNone, PNone => true
      | PStr s, PStr t => String.eqb s t
      | _, _ => false
      end
  end.

(** [auto()]: one more than the last value, and 1 for the first member. *)
Definition auto_value (members : list EnumMember) : PyVal :=
  match List.last (Some <$> members) None with
  | Some m => match py_num (value m) with Some z => PInt (z + 1) | None => PInt 1 end
  | None => PInt 1
  end.

(** Class creation. [members] are the members created so far, in
    definition order, [names] the class namespace. A name whose value
    equals the value of an earlier member creates no member: it is an
    alias of that member. *)
Fixpoint enum_body (body : list (string * EnumRhs))
    (members : list EnumMember) (names : list (string * EnumMember))
    : list (string * EnumMember) :=
  match body with
  | [] => names
  | (name, rhs) :: body' =>
      let v := match rhs with EAuto => auto_value members | ELit v => v end in
      match List.find (λ m, py_eq (value m) v) members with
      | Some m => enum_body body' members (names ++ [(name, m)])
      | None =>
          let m := {| member_name := name; value := v |} in
          enum_body body' (members ++ [m]) (names ++ [(name, m)])
      end
  end.

Definition enum_class (body : list (string * EnumRhs)) : list (string * EnumMember) :=
  enum_body body [] [].

(** Attribute access [Class.NAME]. *)
Definition enum_attr (cls : list (string * EnumMember)) (name : string) : option EnumMember :=
  snd <$> List.find (λ nm, String.eqb (fst nm) name) cls.

(** Members are singletons: [==] between members is identity. *)
Definition member_eqb (a b : EnumMember) : bool :=
  String.eqb (member_name a) (member_name b).

Module TrustInfoVerificationState.

(** Lines 588-602. *)
Definition class : list (string * EnumMember) :=
  enum_class [("UNTESTED", EAuto); ("FAILED", ELit (PBool false)); ("TRUSTED", ELit (PBool true))].

Definition attr (name : string) : EnumMember :=
  default {| member_name := name; value := PNone |} (enum_attr class name).

Definition UNTESTED : EnumMember := attr "UNTESTED".
Definition FAILED : EnumMember := attr "FAILED".
Definition TRUSTED : EnumMember := attr "TRUSTED".

End TrustInfoVerificationState.

(** ** The collaborators of recipe.py *)

(** What lies outside the program: the disk, and everything else (running
    processes, the clock, the cache store, extended attributes). *)
Record Outside (H : Type) := {
  disk : FS;
  hidden : H;
}.
Arguments disk {H} _.
Arguments hidden {H} _.

(** The imports of recipe.py that are not among the sources, and the
    libraries it calls. Each is a function of the outside state; a
    collaborator may return, raise, and change the outside as it likes. *)
Class Collaborators := {
  Hidden : Type;
  (** what a [RecipeReport] keeps of the report file it read *)
  RawReport : Type;
  (** [AutoPkgPrefs().recipe_override_dirs] and [.recipe_search_dirs] *)
  recipe_override_dirs : list Path;
  recipe_search_dirs : list Path;
  (** [Path.expanduser()] *)
  expanduser : Path → Path;
  (** [Path.rglob(pattern)], a generator: the paths it yields, in
      iteration order, and the exception that ends the iteration when it
      raises ([NotImplementedError] at once for a pattern that is not
      relative, [ValueError] for a malformed one) *)
  rglob : FS → Path → string → list Path * option exn;
  (** [yaml.safe_load] and [plistlib.loads] *)
  yaml_safe_load : string → Decoded;
  plistlib_loads : string → Decoded;
  (** [datetime.now(tz=timezone.utc)], as [strftime("%y%m%d_%H%M")] and as [str] *)
  now_strftime : Hidden → string * Hidden;
  now_str : Hidden → string * Hidden;
  (** [shell.run_cmd(cmd, check=...)]; [None] when [check] is not passed *)
  shell_run_cmd : list string → option bool → Outside Hidden → Res (Z * string * string) * Outside Hidden;
  (** [RecipeReport.refresh_contents()] and [.consolidate_report()] *)
  refresh_contents : Path → Outside Hidden → Res RawReport * Outside Hidden;
  consolidate_report : RawReport → Res ConsolidatedReport;
  (** [MetadataCacheManager.save(cache_file, recipe_name, cache)] *)
  cache_save : Path → string → RecipeCache → Outside Hidden → Res unit * Outside Hidden;
  (** [file_utils.get_file_metadata(path, attr)] and [get_file_size(path)] *)
  get_file_metadata : Path → string → Outside Hidden → Res (option string) * Outside Hidden;
  get_file_size : Path → Outside Hidden → Res (option Z) * Outside Hidden;
}.

(** A shell runner that honours [check]: it runs the process and, unless
    the caller passed [check=False], turns a non-zero exit code into an
    exception. The runner is not among the sources; lines 482, 512 and
    576 pass [check=False] before they test the return code, line 540
    passes nothing. *)
Definition checked_run_cmd {H : Type}
    (execute : list string → Outside H → (Z * string * string) * Outside H)
    (failure : Z → exn) (cmd : list string) (check : option bool) (o : Outside H)
    : Res (Z * string * string) * Outside H :=
  let '(result, o') := execute cmd o in
  if default true check && negb (result.1.1 =? 0)%Z
  then (Raise (failure result.1.1), o')
  else (Ok result, o').

(** The calls the program makes to its collaborators. *)
Inductive Event :=
| EvRunCmd (cmd : list string) (check : option bool)
| EvRefresh (report : Path)
| EvGetFileMetadata (p : Path) (attr : string)
| EvGetFileSize (p : Path)
| EvSave (cache_file : Path) (key : string) (cache : RecipeCache).

Section Recipe.
Context `{C : Collaborators}.

(** The state: the outside, the module-level [settings] singleton, and the
    trace of collaborator calls so far (oldest first). *)
Record World := {
  outside : Outside Hidden;
  settings : Settings.SettingsImpl;
  trace : list Event;
}.

(** A collaborator call: it is recorded whether it returns or raises. *)
Definition call {A} (ev : Event) (f : Outside Hidden → Res A * Outside Hidden) : ST World A :=
  λ w, let '(r, o) := f (outside w) in
       (r, {| outside := o; settings := settings w; trace := trace w ++ [ev] |}).

Definition clock (f : Hidden → string * Hidden) : ST World string :=
  λ w, let '(s, h) := f (hidden (outside w)) in
       (Ok s, {| outside := {| disk := disk (outside w); hidden := h |};
                 settings := settings w; trace := trace w |}).

Definition run_cmd (cmd : list string) (check : option bool) : ST World (Z * string * string) :=
  call (EvRunCmd cmd check) (shell_run_cmd cmd check).

(** Modelled from the spec: [RecipeReport] of
    [cloud_autopkg_runner.recipe_report], which is not among the sources.
    The spec (4.6, 6) has it wrap one report file path, re-read the file
    on [refresh] and never write it: constructing it leaves the disk as it
    is. *)
Record RecipeReport := {
  report_file_path : Path;
  report_contents : option RawReport;
}.

(** The attributes of a [Recipe] (lines 107-134). *)
Record Recipe := {
  _name : string;
  _path : Path;
  _format : RecipeFormat;
  _contents : PyVal;
  _trusted : EnumMember;
  _result : RecipeReport;
}.

(** A method runs on its object and the world. *)
Definition Method (A : Type) : Type := ST (Recipe * World) A.

Definition liftW {A} (m : ST World A) : Method A :=
  λ s, let '(x, w) := m s.2 in (x, (s.1, w)).
Definition this : Method Recipe := λ s, (Ok s.1, s).
Definition the_settings : Method Settings.SettingsImpl := λ s, (Ok (settings s.2), s).
Definition set_trusted (t : EnumMember) : Method unit :=
  λ s, (Ok tt, ({| _name := _name s.1; _path := _path s.1; _format := _format s.1;
                   _contents := _contents s.1; _trusted := t; _result := _result s.1 |}, s.2)).
Definition set_result (rr : RecipeReport) : Method unit :=
  λ s, (Ok tt, ({| _name := _name s.1; _path := _path s.1; _format := _format s.1;
                   _contents := _contents s.1; _trusted := _trusted s.1; _result := rr |}, s.2)).

(** Subscript [v[key]] with a string key. The messages are those of
    Python 3.11 and later. *)
Definition subscript (v : PyVal) (key : string) : Res PyVal :=
  match v with
  | PDict m => match m !! key with Some x => Ok x | None => Raise (KeyError key) end
  | PStr _ => Raise (TypeError "string indices must be integers, not 'str'")
  | PList _ => Raise (TypeError "list indices must be integers or slices, not str")
  | PNone => Raise (TypeError "'NoneType' object is not subscriptable")
  | PBool _ => Raise (TypeError "'bool' object is not subscriptable")
  | PInt _ => Raise (TypeError "'int' object is not subscriptable")
  end.

(** Lines 157-164, 166-174, 203-210. *)
Definition identifier (r : Recipe) : Res PyVal := subscript (_contents r) "Identifier".
Definition input (r : Recipe) : Res PyVal := subscript (_contents r) "Input".
Definition name (r : Recipe) : string := path_name (_path r).

(** Lines 176-189. *)
Definition input_name (r : Recipe) : Res PyVal :=
  match subscript (_contents r) "Input" with
  | Ok i =>
      match subscript i "NAME" with
      | Ok v => Ok v
      | Raise (KeyError _) => Raise (RecipeInputException (_path r))
      | Raise e => Raise e
      end
  | Raise (KeyError _) => Raise (RecipeInputException (_path r))
  | Raise e => Raise e
  end.

(** *** The locator (lines 234-263) *)

Definition possible_filenames (recipe_name : string) : list string :=
  if ends_with recipe_name ".recipe" || ends_with recipe_name ".recipe.plist"
     || ends_with recipe_name ".recipe.yaml"
  then [recipe_name]
  else [recipe_name +:+ ".recipe"; recipe_name +:+ ".recipe.plist"; recipe_name +:+ ".recipe.yaml"].

Definition lookup_dirs : list Path := recipe_override_dirs ++ recipe_search_dirs.

(** The innermost loop (lines 259-261): the first path [rglob] yields
    that exists; when it yields none that exists, the exception that ends
    the iteration, if any. *)
Definition first_match (fs : FS) (dir : Path) (filename : string) : Res (option Path) :=
  let '(paths, error) := rglob fs dir filename in
  match List.find (path_exists fs) paths with
  | Some p => Ok (Some p)
  | None =>
      match error with
      | Some e => Raise e
      | None => Ok None
      end
  end.

Fixpoint search_filenames (fs : FS) (dir : Path) (filenames : list string)
    : Res (option Path) :=
  match filenames with
  | [] => Ok None
  | filename :: rest =>
      match first_match fs dir filename with
      | Ok (Some p) => Ok (Some p)
      | Ok None => search_filenames fs dir rest
      | Raise e => Raise e
      end
  end.

Fixpoint search_dirs (fs : FS) (dirs : list Path) (filenames : list string)
    : Res (option Path) :=
  match dirs with
  | [] => Ok None
  | lookup_path :: rest =>
      match search_filenames fs (expanduser lookup_path) filenames with
      | Ok (Some p) => Ok (Some p)
      | Ok None => search_dirs fs rest filenames
      | Raise e => Raise e
      end
  end.

Definition find_recipe (recipe_name : string) : ST World Path :=
  w <- get ;;
  match search_dirs (disk (outside w)) lookup_dirs (possible_filenames recipe_name) with
  | Ok (Some p) => ret p
  | Ok None => raise (RecipeLookupException recipe_name)
  | Raise e => raise e
  end.

(** *** The parser *)

(** Lines 434-447. *)
Definition format (path : Path) : Res RecipeFormat :=
  let suffix := path_suffix path in
  if String.eqb suffix ".yaml" then Ok YAML
  else if String.eqb suffix ".plist" || String.eqb suffix ".recipe" then Ok PLIST
  else Raise (RecipeFormatException suffix).

(** Lines 329-344; [str.encode()] keeps the text. *)
Definition _get_contents_plist (path : Path) (file_contents : string) : Res PyVal :=
  match plistlib_loads file_contents with
  | DecValue v => Ok v
  | DecInvalid => Raise (InvalidPlistContents path)
  | DecOther cls => Raise (Foreign cls)
  end.

(** Lines 346-361. *)
Definition _get_contents_yaml (path : Path) (file_contents : string) : Res PyVal :=
  match yaml_safe_load file_contents with
  | DecValue v => Ok v
  | DecInvalid => Raise (InvalidYamlContents path)
  | DecOther cls => Raise (Foreign cls)
  end.

(** Lines 314-327. *)
Definition _get_contents (path : Path) (fmt : RecipeFormat) : ST World PyVal :=
  w <- get ;;
  file_contents <- lift_res (read_text (disk (outside w)) path) ;;
  match fmt with
  | YAML => lift_res (_get_contents_yaml path file_contents)
  | PLIST => lift_res (_get_contents_plist path file_contents)
  end.

(** *** The constructor (lines 99-134) *)

(** The file name of the [counter]-th report candidate. *)
Definition numbered (original : Path) (counter : nat) : Path :=
  with_stem original (path_stem original +:+ "_" +:+ pretty counter).

(** Lines 125-131: the [while] loop, at most [fuel] tests of
    [report_path.exists()]. *)
Fixpoint scan_report_path (fuel : nat) (fs : FS) (original report_path : Path)
    (counter : nat) : option Path :=
  match fuel with
  | O => None
  | S fuel' =>
      if path_exists fs report_path
      then scan_report_path fuel' fs original (numbered original counter) (counter + 1)
      else Some report_path
  end.

(** A disk holds finitely many paths, so [size fs + 2] tests are enough
    ([free_report_path_total] below): the loop always ends. *)
Definition free_report_path (fs : FS) (report_path : Path) : Path :=
  default report_path (scan_report_path (size fs + 2) fs report_path report_path 1).

Definition mkdir (p : Path) : ST World unit :=
  λ w, let '(r, fs) := mkdir_parents_exist_ok p (disk (outside w)) in
       (r, {| outside := {| disk := fs; hidden := hidden (outside w) |};
              settings := settings w; trace := trace w |}).

Definition __init__ (recipe_name : string) (report_dir : option Path) : ST World Recipe :=
  path <- find_recipe recipe_name ;;
  fmt <- lift_res (format path) ;;
  contents <- _get_contents path fmt ;;
  now <- clock now_strftime ;;
  w <- get ;;
  let report_dir := default (Settings._report_dir (settings w)) report_dir in
  let report_path :=
    path_join report_dir ("report_" +:+ now +:+ "_" +:+ path_name path +:+ ".plist") in
  let report_path := free_report_path (disk (outside w)) report_path in
  mkdir (path_parent report_path) ;;;
  ret {| _name := recipe_name; _path := path; _format := fmt; _contents := contents;
         _trusted := TrustInfoVerificationState.UNTESTED;
         _result := {| report_file_path := report_path; report_contents := None |} |}.

(** *** Running a recipe *)

(** Lines 265-287. *)
Definition _autopkg_run_cmd (r : Recipe) (s : Settings.SettingsImpl) (check : bool) : list string :=
  ["/usr/local/bin/autopkg"; "run"; name r;
   "--report-plist=" +:+ path_str (report_file_path (_result r))]
  ++ (if (0 <? Settings.verbosity_int s (-1))%Z then [Settings.verbosity_str s (-1)] else [])
  ++ (if check then ["--check"] else []).

Fixpoint mapM_res {A B} (f : A → Res B) (l : list A) : Res (list B) :=
  match l with
  | [] => Ok []
  | x :: l' =>
      match f x with
      | Raise e => Raise e
      | Ok y => match mapM_res f l' with Raise e => Raise e | Ok ys => Ok (y :: ys) end
      end
  end.

Definition getitem (d : gmap string string) (key : string) : Res string :=
  match d !! key with
  | Some v => Ok v
  | None => Raise (KeyError key)
  end.

(** Lines 289-312. *)
Definition _extract_download_paths (download_items : list (gmap string string)) : Res (list string) :=
  match download_items with
  | [] => Ok []
  | _ => mapM_res (λ item, getitem item "download_path") download_items
  end.

(** Lines 390-422. The three awaited calls are recorded in the order of
    the arguments of [asyncio.gather], which is the order of its results. *)
Definition _get_metadata_for_item (downloaded_item : string) : ST World DownloadMetadata :=
  let downloaded_item_path := path_of_str downloaded_item in
  etag <- call (EvGetFileMetadata downloaded_item_path "com.github.autopkg.etag")
            (get_file_metadata downloaded_item_path "com.github.autopkg.etag") ;;
  file_size <- call (EvGetFileSize downloaded_item_path) (get_file_size downloaded_item_path) ;;
  last_modified <- call (EvGetFileMetadata downloaded_item_path "com.github.autopkg.last-modified")
            (get_file_metadata downloaded_item_path "com.github.autopkg.last-modified") ;;
  ret {| etag := etag; file_size := file_size; last_modified := last_modified;
         file_path := downloaded_item |}.

Fixpoint gather {S A B} (f : A → ST S B) (l : list A) : ST S (list B) :=
  match l with
  | [] => ret []
  | x :: l' => y <- f x ;; ys <- gather f l' ;; ret (y :: ys)
  end.

(** Lines 363-388. *)
Definition _get_metadata (download_items : list (gmap string string)) : ST World RecipeCache :=
  paths <- lift_res (_extract_download_paths download_items) ;;
  metadata_list <- gather _get_metadata_for_item paths ;;
  now <- clock now_str ;;
  ret {| timestamp := now; metadata := metadata_list |}.

(** Lines 424-432. *)
Definition compile_report : Method ConsolidatedReport :=
  r <- this ;;
  let path := report_file_path (_result r) in
  raw <- liftW (call (EvRefresh path) (refresh_contents path)) ;;
  set_result {| report_file_path := path; report_contents := Some raw |} ;;;
  lift_res (consolidate_report raw).

(** Lines 468-494. A non-zero return code is logged and nothing else. *)
Definition run_check_phase : Method ConsolidatedReport :=
  r <- this ;;
  s <- the_settings ;;
  liftW (run_cmd (_autopkg_run_cmd r s true) (Some false)) ;;;
  compile_report.

(** Lines 496-520. *)
Definition run_full : Method ConsolidatedReport :=
  r <- this ;;
  s <- the_settings ;;
  liftW (run_cmd (_autopkg_run_cmd r s false) (Some false)) ;;;
  compile_report.

Definition save_cache (cache_file : Path) (key : string) (cache : RecipeCache) : ST World unit :=
  call (EvSave cache_file key cache) (cache_save cache_file key cache).

(** Lines 449-466. *)
Definition run : Method ConsolidatedReport :=
  output <- run_check_phase ;;
  match downloaded_items output with
  | _ :: _ =>
      metadata <- liftW (_get_metadata (downloaded_items output)) ;;
      r <- this ;;
      s <- the_settings ;;
      liftW (save_cache (Settings._cache_file s) (name r) metadata) ;;;
      run_full
  | [] => ret output
  end.

(** *** Trust information *)

Definition trust_cmd (subcommand : string) (r : Recipe) : list string :=
  ["/usr/local/bin/autopkg"; subcommand; name r;
   "--override-dir=" +:+ path_str (path_parent (_path r))].

(** Lines 522-550. *)
Definition update_trust_info : Method bool :=
  r <- this ;;
  out <- liftW (run_cmd (trust_cmd "update-trust-info" r) None) ;;
  let '(returncode, stdout, _stderr) := out in
  set_trusted TrustInfoVerificationState.UNTESTED ;;;
  if (returncode =? 0)%Z then ret true else ret false.

(** Lines 566-574. *)
Definition verify_cmd (r : Recipe) (s : Settings.SettingsImpl) : list string :=
  trust_cmd "verify-trust-info" r
  ++ (if (0 <? Settings.verbosity_int s 0)%Z then [Settings.verbosity_str s 0] else []).

(** Lines 552-585. *)
Definition verify_trust_info : Method PyVal :=
  r <- this ;;
  (if member_eqb (_trusted r) TrustInfoVerificationState.UNTESTED then
     s <- the_settings ;;
     let cmd := verify_cmd r s in
     out <- liftW (run_cmd cmd (Some false)) ;;
     let '(returncode, _stdout, _stderr) := out in
     if (returncode =? 0)%Z then set_trusted TrustInfoVerificationState.TRUSTED
     else set_trusted TrustInfoVerificationState.FAILED
   else ret tt) ;;;
  r <- this ;;
  ret (value (_trusted r)).

(** *** The other accessors *)

(** Lines 136-143. *)
Definition contents (r : Recipe) : PyVal := _contents r.

(** The shape of lines 145-155, 191-201 and 212-222: the value under the
    key, and the empty string when that value is [None]. *)
Definition text_or_empty (r : Recipe) (key : string) : Res PyVal :=
  match subscript (_contents r) key with
  | Ok PNone => Ok (PStr "")
  | Ok _ => subscript (_contents r) key
  | Raise e => Raise e
  end.

Definition description (r : Recipe) : Res PyVal := text_or_empty r "Description".
Definition minimum_version (r : Recipe) : Res PyVal := text_or_empty r "MinimumVersion".
Definition parent_recipe (r : Recipe) : Res PyVal := text_or_empty r "ParentRecipe".

(** Lines 224-232. *)
Definition process (r : Recipe) : Res PyVal := subscript (_contents r) "Process".

(** What the counter adds to the stem of a report name: nothing for the
    first candidate, [_k] for the k-th numbered one. *)
Definition counter_suffix (k : nat) : string :=
  match k with
  | O => ""
  | S _ => "_" +:+ pretty k
  end.

(** The three awaited calls of one downloaded item (lines 406-415). *)
Definition item_fetches (downloaded_item : string) : list Event :=
  [EvGetFileMetadata (path_of_str downloaded_item) "com.github.autopkg.etag";
   EvGetFileSize (path_of_str downloaded_item);
   EvGetFileMetadata (path_of_str downloaded_item) "com.github.autopkg.last-modified"].

(** *** The locator, as the specification words it *)






(** *** The collection, call by call *)

(** The attribute helpers answer for every path in turn: from the
    outside [o] they return the entries [mds] and leave the outside
    [o']. *)
Inductive fetches_all : list string → Outside Hidden → list DownloadMetadata
    → Outside Hidden → Prop :=
| fetches_nil (o : Outside Hidden) : fetches_all [] o [] o
| fetches_cons (p : string) (ps : list string) (o o1 o2 o3 o' : Outside Hidden)
    (tag modified : option string) (size : option Z) (mds : list DownloadMetadata) :
    get_file_metadata (path_of_str p) "com.github.autopkg.etag" o = (Ok tag, o1) →
    get_file_size (path_of_str p) o1 = (Ok size, o2) →
    get_file_metadata (path_of_str p) "com.github.autopkg.last-modified" o2 = (Ok modified, o3) →
    fetches_all ps o3 mds o' →
    fetches_all (p :: ps) o
      ({| etag := tag; file_size := size; last_modified := modified; file_path := p |} :: mds) o'.

(** *** Reading a trace *)

(** An [autopkg run] without [--check]: the full phase. *)
Definition is_full_phase (e : Event) : bool :=
  match e with
  | EvRunCmd cmd _ =>
      bool_decide (cmd !! 1%nat = Some "run") && negb (bool_decide (last cmd = Some "--check"))
  | _ => false
  end.

Definition is_run_cmd (e : Event) : bool :=
  match e with EvRunCmd _ _ => true | _ => false end.

Definition is_save (e : Event) : bool :=
  match e with EvSave _ _ _ => true | _ => false end.

Definition is_fetch (e : Event) : bool :=
  match e with EvGetFileMetadata _ _ | EvGetFileSize _ => true | _ => false end.

Definition count (f : Event → bool) (l : list Event) : nat := length (List.filter f l).

(** Two states of one recipe object: only what the report handle has read
    may differ. *)
Definition same_recipe (r r' : Recipe) : Prop :=
  _name r' = _name r ∧ _path r' = _path r ∧ _format r' = _format r
  ∧ _contents r' = _contents r ∧ _trusted r' = _trusted r
  ∧ report_file_path (_result r') = report_file_path (_result r).

End Recipe.

(** ** A small world to run the model on *)

(** Collaborators that follow a script: the exit codes of the next
    subprocesses and the reports the report file will hold after them.
    They stand in for the real ones in the examples below. *)
Module Demo.

Record Script := {
  exit_codes : list Z;
  reports : list ConsolidatedReport;
}.

Definition empty_report : ConsolidatedReport :=
  {| failed_items := []; downloaded_items := []; pkg_builds := []; munki_imports := [] |}.

Definition demo_run_cmd (cmd : list string) (check : option bool) (o : Outside Script)
    : Res (Z * string * string) * Outside Script :=
  match exit_codes (hidden o) with
  | rc :: rest =>
      (Ok (rc, "", ""),
       {| disk := disk o; hidden := {| exit_codes := rest; reports := reports (hidden o) |} |})
  | [] => (Ok (0%Z, "", ""), o)
  end.

Definition demo_refresh (p : Path) (o : Outside Script)
    : Res ConsolidatedReport * Outside Script :=
  match reports (hidden o) with
  | rep :: rest =>
      (Ok rep,
       {| disk := disk o; hidden := {| exit_codes := exit_codes (hidden o); reports := rest |} |})
  | [] => (Ok empty_report, o)
  end.

(** Every file below [dir] whose name is [pattern]; a pattern that is
    not relative is refused, as [pathlib] does. *)
Definition demo_rglob (fs : FS) (dir : Path) (pattern : string) : list Path * option exn :=
  if String.prefix "/" pattern then ([], Some (Foreign "NotImplementedError"))
  else
    (List.filter (λ p, bool_decide (dir `prefix_of` p) && String.eqb (path_name p) pattern)
       (elements (dom fs)), None).

Definition good_plist : string :=
  "<plist><dict><key>Identifier</key><string>com.example.test</string></dict></plist>".

(** [plistlib.loads] on the three documents of the examples: a document
    that is neither XML nor binary is an [InvalidFileException], XML that
    breaks off comes out of the Expat parser as an [ExpatError]. *)
Definition demo_plistlib_loads (s : string) : Decoded :=
  if String.prefix "<?xml" s || String.prefix "<plist" s then
    if String.eqb s good_plist
    then DecValue (PDict {[ "Identifier" := PStr "com.example.test" ]})
    else DecOther "xml.parsers.expat.ExpatError"
  else DecInvalid.

(** [yaml.safe_load]: a mapping, a flow mapping left open, and plain
    scalars. *)
Definition demo_yaml_safe_load (s : string) : Decoded :=
  if String.eqb s "Input: {}" then DecValue (PDict {[ "Input" := PDict ∅ ]})
  else if String.eqb s "Input: {NAME: Foo}"
  then DecValue (PDict {[ "Input" := PDict {[ "NAME" := PStr "Foo" ]} ]})
  else if String.eqb s "{" then DecInvalid
  else DecValue (PStr s).

(** The cache store writes the entry of the recipe to the cache file. *)
Definition demo_cache_save (cache_file : Path) (key : string) (cache : RecipeCache)
    (o : Outside Script) : Res unit * Outside Script :=
  (Ok tt,
   {| disk := <[cache_file := File (key +:+ " cached at " +:+ timestamp cache)]> (disk o);
      hidden := hidden o |}).

#[export] Instance collaborators : Collaborators := {|
  Hidden := Script;
  RawReport := ConsolidatedReport;
  recipe_override_dirs := [["overrides"]];
  recipe_search_dirs := [["recipes"]];
  expanduser := id;
  rglob := demo_rglob;
  yaml_safe_load := demo_yaml_safe_load;
  plistlib_loads := demo_plistlib_loads;
  now_strftime := λ h, ("251103_1200", h);
  now_str := λ h, ("2025-11-03 12:00:00+00:00", h);
  shell_run_cmd := demo_run_cmd;
  refresh_contents := demo_refresh;
  consolidate_report := Ok;
  cache_save := demo_cache_save;
  get_file_metadata := λ _ attr o,
    (Ok (if String.eqb attr "com.github.autopkg.etag" then Some "abc123" else None), o);
  get_file_size := λ _ o, (Ok (Some 42%Z), o);
|}.

(** The same collaborators with a cache store that cannot write. *)
Definition broken_store : Collaborators := {|
  Hidden := Script;
  RawReport := ConsolidatedReport;
  recipe_override_dirs := [["overrides"]];
  recipe_search_dirs := [["recipes"]];
  expanduser := id;
  rglob := demo_rglob;
  yaml_safe_load := demo_yaml_safe_load;
  plistlib_loads := demo_plistlib_loads;
  now_strftime := λ h, ("251103_1200", h);
  now_str := λ h, ("2025-11-03 12:00:00+00:00", h);
  shell_run_cmd := demo_run_cmd;
  refresh_contents := demo_refresh;
  consolidate_report := Ok;
  cache_save := λ _ _ _ o, (Raise (Foreign "OSError"), o);
  get_file_metadata := λ _ attr o,
    (Ok (if String.eqb attr "com.github.autopkg.etag" then Some "abc123" else None), o);
  get_file_size := λ _ o, (Ok (Some 42%Z), o);
|}.

(** The process of the script, without the runner's check. *)
Definition demo_execute (cmd : list string) (o : Outside Script)
    : (Z * string * string) * Outside Script :=
  match exit_codes (hidden o) with
  | rc :: rest =>
      ((rc, "", ""),
       {| disk := disk o; hidden := {| exit_codes := rest; reports := reports (hidden o) |} |})
  | [] => ((0%Z, "", ""), o)
  end.

Definition shell_failure (rc : Z) : exn := Foreign "ShellCommandException".

(** The same collaborators with a shell runner that honours [check]. *)
Definition checking : Collaborators := {|
  Hidden := Script;
  RawReport := ConsolidatedReport;
  recipe_override_dirs := [["overrides"]];
  recipe_search_dirs := [["recipes"]];
  expanduser := id;
  rglob := demo_rglob;
  yaml_safe_load := demo_yaml_safe_load;
  plistlib_loads := demo_plistlib_loads;
  now_strftime := λ h, ("251103_1200", h);
  now_str := λ h, ("2025-11-03 12:00:00+00:00", h);
  shell_run_cmd := checked_run_cmd demo_execute shell_failure;
  refresh_contents := demo_refresh;
  consolidate_report := Ok;
  cache_save := demo_cache_save;
  get_file_metadata := λ _ attr o,
    (Ok (if String.eqb attr "com.github.autopkg.etag" then Some "abc123" else None), o);
  get_file_size := λ _ o, (Ok (Some 42%Z), o);
|}.

(** A report whose downloaded item has no [download_path]. *)
Definition pathless_download : ConsolidatedReport :=
  {| failed_items := []; downloaded_items := [ ∅ ];
     pkg_builds := []; munki_imports := [] |}.

Definition default_settings : Settings.SettingsImpl :=
  {| Settings._cache_file := ["metadata_cache.json"]; Settings._log_file := None;
     Settings._max_concurrency := 10; Settings._report_dir := ["recipe_reports"];
     Settings._verbosity_level := 0 |}.

(** A disk with one recipe in the search directory and one override. *)
Definition demo_disk : FS :=
  {[ ["recipes"] := Dir;
     ["recipes"; "Foo.recipe"] := File good_plist;
     ["recipes"; "Foo.recipe.yaml"] := File "Input: {NAME: Foo}";
     ["overrides"] := Dir;
     ["overrides"; "Foo.recipe.yaml"] := File "Input: {}" ]}.

Definition world (codes : list Z) (reps : list ConsolidatedReport) : World :=
  {| outside := {| disk := demo_disk; hidden := {| exit_codes := codes; reports := reps |} |};
     settings := default_settings; trace := [] |}.

Definition one_download : ConsolidatedReport :=
  {| failed_items := []; downloaded_items := [ {[ "download_path" := "/tmp/x.dmg" ]} ];
     pkg_builds := []; munki_imports := [] |}.

Definition after_full : ConsolidatedReport :=
  {| failed_items := []; downloaded_items := [ {[ "download_path" := "/tmp/x.dmg" ]} ];
     pkg_builds := [ {[ "pkg_path" := "/tmp/x.pkg" ]} ]; munki_imports := [] |}.

Definition foo (trusted : EnumMember) : Recipe :=
  {| _name := "Foo.recipe.yaml"; _path := ["overrides"; "Foo.recipe.yaml"]; _format := YAML;
     _contents := PDict {[ "Input" := PDict {[ "NAME" := PStr "Foo" ]} ]};
     _trusted := trusted;
     _result := {| report_file_path := ["recipe_reports"; "report_251103_1200_Foo.recipe.yaml.plist"];
                   report_contents := None |} |}.

(** The same recipe and world, for the cache store that cannot write. *)
Definition broken_foo : Recipe (C := broken_store) :=
  {| _name := "Foo.recipe.yaml"; _path := ["overrides"; "Foo.recipe.yaml"]; _format := YAML;
     _contents := PDict {[ "Input" := PDict {[ "NAME" := PStr "Foo" ]} ]};
     _trusted := TrustInfoVerificationState.UNTESTED;
     _result := {| report_file_path := ["recipe_reports"; "report_251103_1200_Foo.recipe.yaml.plist"];
                   report_contents := None |} |}.

Definition broken_world (codes : list Z) (reps : list ConsolidatedReport)
    : World (C := broken_store) :=
  @Build_World broken_store
    {| disk := demo_disk; hidden := {| exit_codes := codes; reports := reps |} |}
    default_settings [].

(** The same recipe and world, for the runner that honours [check]. *)
Definition checking_foo (trusted : EnumMember) : Recipe (C := checking) :=
  {| _name := "Foo.recipe.yaml"; _path := ["overrides"; "Foo.recipe.yaml"]; _format := YAML;
     _contents := PDict {[ "Input" := PDict {[ "NAME" := PStr "Foo" ]} ]};
     _trusted := trusted;
     _result := {| report_file_path := ["recipe_reports"; "report_251103_1200_Foo.recipe.yaml.plist"];
                   report_contents := None |} |}.

Definition checking_world (codes : list Z) : World (C := checking) :=
  @Build_World checking
    {| disk := demo_disk; hidden := {| exit_codes := codes; reports := [] |} |}
    default_settings [].

End Demo.

(** * Properties *)

(** ** The settings singleton *)

Module SettingsFacts.
Import Settings.

(** The first construction of the module ([settings = SettingsImpl()] at
    line 275) creates the instance and sets the defaults. *)
Lemma first_construction :
  ∃ o cs, construct no_kwargs initial = (Ok o, cs)
          ∧ _instance cs = Some o
          ∧ fields_of o cs = Some {| _cache_file := ["metadata_cache.json"]; _log_file := None;
                                      _max_concurrency := 10; _report_dir := ["recipe_reports"];
                                      _verbosity_level := 0 |}.
Proof. eexists _, _. split; [reflexivity|]. split; reflexivity. Qed.

(** Before there is an instance, keyword arguments reach [object.__new__],
    which refuses them. *)
Lemma first_construction_with_kwargs kw :
  has_kwargs kw = true →
  ∃ msg, construct kw initial = (Raise (TypeError msg), initial).
Proof.
  intros Hkw. eexists. unfold construct, __new__, bind, get. simpl.
  rewrite Hkw. reflexivity.
Qed.

(** A setter leaves the singleton in place and initialised, with the
    fields it computed. *)
Lemma update_fields_keeps_singleton (cs cs' : ClassState) (o : nat)
    (f : SettingsImpl → Res SettingsImpl) :
  _instance cs = Some o →
  update_fields o f cs = (Ok tt, cs') →
  _instance cs' = Some o ∧ ∃ fields, heap cs' !! o = Some (Some fields).
Proof.
  intros Hinst. unfold update_fields, bind, get, put, lift_res, raise. simpl.
  destruct (heap cs !! o) as [[fields|]|]; try discriminate.
  destruct (f fields) as [fields'|]; [|discriminate].
  intros [= <-]. simpl. split; [exact Hinst|].
  exists fields'. apply lookup_insert_eq.
Qed.

(** C10. Once the singleton exists and is initialised, a constructor call
    with any keyword arguments returns that same object and leaves the
    class state as it was: the instance, and each of its five fields
    (cache file, log file, max concurrency, report directory, verbosity
    level), whatever values they hold by then. The arguments of the call
    are ignored. *)
Theorem construct_again_returns_singleton (kw : Kwargs) (cs : ClassState)
    (o : nat) (f : SettingsImpl) :
  _instance cs = Some o →
  heap cs !! o = Some (Some f) →
  construct kw cs = (Ok o, cs)
  ∧ fields_of o (construct kw cs).2 = Some f.
Proof.
  intros Hinst Hobj.
  assert (Hrun : construct kw cs = (Ok o, cs)).
  { unfold construct, __new__, __init__, bind, get, ret. simpl.
    rewrite Hinst. simpl. rewrite Hobj. reflexivity. }
  split; [exact Hrun|].
  rewrite Hrun. unfold fields_of. simpl. rewrite Hobj. reflexivity.
Qed.

Lemma construct_again_returns_singleton_witness :
  let cs := (construct no_kwargs initial).2 in
  construct every_keyword cs = (Ok 0%nat, cs)
  ∧ (_report_dir <$> fields_of 0%nat (construct every_keyword cs).2) = Some ["recipe_reports"].
Proof.
  intros cs.
  destruct (construct_again_returns_singleton every_keyword cs 0%nat
              {| _cache_file := ["metadata_cache.json"]; _log_file := None;
                 _max_concurrency := 10; _report_dir := ["recipe_reports"];
                 _verbosity_level := 0 |}) as [H1 H2].
  - vm_compute. reflexivity.
  - vm_compute. reflexivity.
  - split; [exact H1|]. rewrite H2. reflexivity.
Defined.

End SettingsFacts.

(** ** More on the settings *)

Module SettingsMore.
Import Settings.

Lemma module_state_well_formed : well_formed module_state.
Proof.
  split; [reflexivity|]. eexists. split; [reflexivity|]. split; reflexivity || discriminate.
Qed.

Lemma construct_well_formed (kw : Kwargs) (cs : ClassState) :
  well_formed cs → construct kw cs = (Ok settings_object, cs).
Proof.
  intros (Hinst & f & Hheap & _).
  unfold construct, __new__, __init__, bind, get, ret. simpl.
  rewrite Hinst. simpl. rewrite Hheap, lookup_singleton_eq. reflexivity.
Qed.

Lemma update_fields_well_formed (cs : ClassState) (g : SettingsImpl → Res SettingsImpl) :
  well_formed cs →
  (∀ f f', g f = Ok f' → (1 ≤ _max_concurrency f)%Z → (0 ≤ _verbosity_level f)%Z →
           (1 ≤ _max_concurrency f')%Z ∧ (0 ≤ _verbosity_level f')%Z) →
  well_formed (update_fields settings_object g cs).2.
Proof.
  intros (Hinst & f & Hheap & Hmax & Hverb) Hg.
  unfold update_fields, bind, get, put, lift_res, raise. simpl.
  rewrite Hheap, lookup_singleton_eq.
  destruct (g f) as [f'|e] eqn:Hgf; simpl.
  - split; [exact Hinst|]. exists f'. split; [apply insert_singleton_eq|].
    exact (Hg f f' Hgf Hmax Hverb).
  - split; [exact Hinst|]. exists f. rewrite Hheap. auto.
Qed.

Lemma perform_well_formed (a : Action) (cs : ClassState) :
  well_formed cs → well_formed (perform a cs).2.
Proof.
  intros Hwf. destruct a as [kw|v|v|v|v|v]; simpl.
  - unfold bind. rewrite (construct_well_formed kw cs Hwf). exact Hwf.
  - apply update_fields_well_formed; [exact Hwf|]. intros f f' [= <-]. auto.
  - apply update_fields_well_formed; [exact Hwf|]. intros f f' [= <-]. auto.
  - apply update_fields_well_formed; [exact Hwf|]. intros f f'.
    unfold set_max_concurrency, _validate_integer_is_positive.
    destruct (Z.ltb_spec v 1); [discriminate|]. intros [= <-]. simpl. auto.
  - apply update_fields_well_formed; [exact Hwf|]. intros f f' [= <-]. auto.
  - apply update_fields_well_formed; [exact Hwf|]. intros f f'.
    unfold set_verbosity_level, _validate_integer_is_not_negative.
    destruct (Z.ltb_spec v 0); [discriminate|]. intros [= <-]. simpl. auto.
Qed.

Lemma after_well_formed (actions : list Action) (cs : ClassState) :
  well_formed cs → well_formed (after actions cs).
Proof.
  revert cs. induction actions as [|a actions IH]; intros cs Hwf; [exact Hwf|].
  apply IH, perform_well_formed, Hwf.
Qed.

(** X1. Whatever constructor calls and property assignments a program
    makes after the import, in any order and whether they raise or not,
    the class keeps exactly one object, the one bound to [settings]; it is
    initialised, its max concurrency is at least 1 and its verbosity level
    is not negative. *)
Theorem settings_invariant (actions : list Action) :
  let cs := after actions module_state in
  _instance cs = Some settings_object
  ∧ dom (heap cs) = {[ settings_object ]}
  ∧ ∃ f, fields_of settings_object cs = Some f
         ∧ (1 ≤ _max_concurrency f)%Z ∧ (0 ≤ _verbosity_level f)%Z.
Proof.
  destruct (after_well_formed actions module_state module_state_well_formed)
    as (Hinst & f & Hheap & Hmax & Hverb).
  cbn zeta. split; [exact Hinst|]. split.
  - rewrite Hheap. apply dom_singleton_L.
  - exists f. unfold fields_of. rewrite Hheap, lookup_singleton_eq. auto.
Qed.

(** X2. After the import no constructor call has any effect, whatever
    happened in between: it returns the object bound to [settings] and
    the class state is the same, so keyword arguments never reach the
    fields. *)
Theorem constructor_is_inert (actions : list Action) (kw : Kwargs) :
  let cs := after actions module_state in
  construct kw cs = (Ok settings_object, cs).
Proof.
  apply construct_well_formed, after_well_formed, module_state_well_formed.
Qed.

(** X3. The two validated setters, in any reachable state. Assigning a
    max concurrency below 1 or a verbosity level below 0 raises
    [SettingsValidationError] naming the field and changes nothing;
    any other value is stored, is what the getter returns next, and the
    other four fields keep their values. *)
Theorem validated_setters (actions : list Action) (value : Z) :
  let cs := after actions module_state in
  let get {A} (field : SettingsImpl → A) (cs : ClassState) :=
    field <$> fields_of settings_object cs in
  ((value < 1)%Z →
     perform (SetMaxConcurrency value) cs
     = (Raise (SettingsValidationError "max_concurrency" "Must be a positive integer"), cs))
  ∧ ((1 ≤ value)%Z →
     ∃ cs', perform (SetMaxConcurrency value) cs = (Ok tt, cs')
            ∧ get _max_concurrency cs' = Some value
            ∧ get _cache_file cs' = get _cache_file cs
            ∧ get _log_file cs' = get _log_file cs
            ∧ get _report_dir cs' = get _report_dir cs
            ∧ get _verbosity_level cs' = get _verbosity_level cs)
  ∧ ((value < 0)%Z →
     perform (SetVerbosityLevel value) cs
     = (Raise (SettingsValidationError "verbosity_level" "Must not be negative"), cs))
  ∧ ((0 ≤ value)%Z →
     ∃ cs', perform (SetVerbosityLevel value) cs = (Ok tt, cs')
            ∧ get _verbosity_level cs' = Some value
            ∧ get _cache_file cs' = get _cache_file cs
            ∧ get _log_file cs' = get _log_file cs
            ∧ get _report_dir cs' = get _report_dir cs
            ∧ get _max_concurrency cs' = get _max_concurrency cs).
Proof.
  destruct (after_well_formed actions module_state module_state_well_formed)
    as (Hinst & f & Hheap & _).
  cbn zeta. set (cs := after actions module_state) in *.
  assert (Hobj : heap cs !! settings_object = Some (Some f)).
  { rewrite Hheap. apply lookup_singleton_eq. }
  unfold perform, update_fields, bind, get, put, lift_res, raise, fields_of. simpl.
  rewrite Hobj. simpl.
  unfold set_max_concurrency, set_verbosity_level,
    _validate_integer_is_positive, _validate_integer_is_not_negative.
  split; [|split; [|split]].
  - intros Hlt. destruct (Z.ltb_spec value 1); [reflexivity|lia].
  - intros Hge. destruct (Z.ltb_spec value 1); [lia|]. simpl.
    eexists. split; [reflexivity|]. simpl. rewrite lookup_insert_eq. simpl.
    repeat split; reflexivity.
  - intros Hlt. destruct (Z.ltb_spec value 0); [reflexivity|lia].
  - intros Hge. destruct (Z.ltb_spec value 0); [lia|]. simpl.
    eexists. split; [reflexivity|]. simpl. rewrite lookup_insert_eq. simpl.
    repeat split; reflexivity.
Qed.

(** The three setters of paths accept a string or a path and store a
    path; they validate nothing. *)
Lemma path_setters_store (f : SettingsImpl) (value : StrOrPath) :
  _cache_file (set_cache_file value f) = _convert_to_path value
  ∧ _report_dir (set_report_dir value f) = _convert_to_path value
  ∧ _log_file (set_log_file (Some value) f) = Some (_convert_to_path value)
  ∧ _log_file (set_log_file None f) = None.
Proof. repeat split; reflexivity. Qed.

Lemma repeat_v_length (n : nat) : String.length (repeat_v n) = n.
Proof.
  induction n as [|n IH]; [reflexivity|].
  change (repeat_v (S n)) with (String "v" (repeat_v n)). simpl. rewrite IH. reflexivity.
Qed.

(** X4. [verbosity_int] is the level plus delta, cut off at zero, and
    [verbosity_str] agrees with it: the empty string when
    [verbosity_int] is 0, otherwise a dash followed by [verbosity_int]
    letters v. *)
Theorem verbosity_str_matches_int (s : SettingsImpl) (delta : Z) :
  verbosity_int s delta = Z.max 0 (_verbosity_level s + delta)
  ∧ (verbosity_int s delta = 0%Z → verbosity_str s delta = "")
  ∧ ((0 < verbosity_int s delta)%Z →
     verbosity_str s delta = "-" +:+ repeat_v (Z.to_nat (verbosity_int s delta))
     ∧ Z.of_nat (String.length (verbosity_str s delta)) = (verbosity_int s delta + 1)%Z).
Proof.
  unfold verbosity_int, verbosity_str.
  destruct (Z.leb_spec (_verbosity_level s + delta) 0) as [Hle|Hgt].
  - split; [lia|]. split; [reflexivity|lia].
  - split; [lia|]. split; [lia|]. intros _. split; [reflexivity|].
    change ("-" +:+ ?x) with (String "-" x). cbn [String.length].
    rewrite repeat_v_length. lia.
Qed.

End SettingsMore.

(** ** The recipe *)

Section RecipeFacts.
Context `{C : Collaborators}.

(** Unfolding one layer of the monad. *)
Ltac st_unfold :=
  unfold bind, ret, raise, get, put, lift_res, this, the_settings, liftW,
    set_trusted, set_result, run_cmd, save_cache, call, clock in *;
  simpl in *.

(** *** The trust state *)

(** The values [True] and [1] are equal, so the class body of lines
    600-602 creates two members: [TRUSTED] is another name of the member
    [UNTESTED]. *)
Lemma TRUSTED_is_UNTESTED :
  TrustInfoVerificationState.TRUSTED = TrustInfoVerificationState.UNTESTED.
Proof. reflexivity. Qed.

Lemma FAILED_is_not_UNTESTED :
  member_eqb TrustInfoVerificationState.FAILED TrustInfoVerificationState.UNTESTED = false.
Proof. reflexivity. Qed.

(** C3, at the input where it fails. A recipe is untested and its first
    verification exits with code zero. The call stores [TRUSTED], which is
    the member [UNTESTED], and returns its value 1; the next [verify()]
    finds the state untested and runs the verification subprocess again:
    two invocations for two calls and nothing memoized. *)
Theorem verify_after_success_runs_again (r : Recipe) (w : World)
    (stdout stderr : string) (o1 : Outside Hidden)
    (second : Res (Z * string * string)) (o2 : Outside Hidden) :
  _trusted r = TrustInfoVerificationState.UNTESTED →
  shell_run_cmd (verify_cmd r (settings w)) (Some false) (outside w)
    = (Ok (0%Z, stdout, stderr), o1) →
  shell_run_cmd (verify_cmd r (settings w)) (Some false) o1 = (second, o2) →
  let s1 := (verify_trust_info (r, w)).2 in
  let s2 := (verify_trust_info s1).2 in
  (verify_trust_info (r, w)).1 = Ok (PInt 1)
  ∧ _trusted s1.1 = TrustInfoVerificationState.UNTESTED
  ∧ trace s2.2 = trace w ++ [EvRunCmd (verify_cmd r (settings w)) (Some false);
                             EvRunCmd (verify_cmd r (settings w)) (Some false)].
Proof.
  intros Hun H1 H2. unfold verify_cmd in *.
  assert (Hfirst : verify_trust_info (r, w) =
    (Ok (PInt 1),
     ({| _name := _name r; _path := _path r; _format := _format r; _contents := _contents r;
         _trusted := TrustInfoVerificationState.TRUSTED; _result := _result r |},
      {| outside := o1; settings := settings w;
         trace := trace w ++ [EvRunCmd (verify_cmd r (settings w)) (Some false)] |}))).
  { unfold verify_trust_info, verify_cmd. st_unfold. rewrite Hun. simpl.
    rewrite H1. reflexivity. }
  rewrite Hfirst. cbn [fst snd].
  split; [reflexivity|]. split; [reflexivity|].
  unfold verify_trust_info, verify_cmd, trust_cmd, name. st_unfold.
  unfold trust_cmd, name in H2. simpl in H2. rewrite H2.
  destruct second as [[[rc so] se]|e]; simpl.
  - destruct (rc =? 0)%Z; simpl; rewrite <- app_assoc; reflexivity.
  - rewrite <- app_assoc. reflexivity.
Qed.

(** A failed verification is memoized: the next call runs nothing and
    returns [False]. *)
Lemma verify_after_failure_is_memoized (r : Recipe) (w : World)
    (rc : Z) (stdout stderr : string) (o1 : Outside Hidden) :
  _trusted r = TrustInfoVerificationState.UNTESTED →
  rc ≠ 0%Z →
  shell_run_cmd (verify_cmd r (settings w)) (Some false) (outside w)
    = (Ok (rc, stdout, stderr), o1) →
  let s1 := (verify_trust_info (r, w)).2 in
  (verify_trust_info (r, w)).1 = Ok (PBool false)
  ∧ verify_trust_info s1 = (Ok (PBool false), s1)
  ∧ trace s1.2 = trace w ++ [EvRunCmd (verify_cmd r (settings w)) (Some false)].
Proof.
  intros Hun Hrc H1. unfold verify_cmd in *.
  assert (Hfirst : verify_trust_info (r, w) =
    (Ok (PBool false),
     ({| _name := _name r; _path := _path r; _format := _format r; _contents := _contents r;
         _trusted := TrustInfoVerificationState.FAILED; _result := _result r |},
      {| outside := o1; settings := settings w;
         trace := trace w ++ [EvRunCmd (verify_cmd r (settings w)) (Some false)] |}))).
  { unfold verify_trust_info, verify_cmd. st_unfold. rewrite Hun. simpl.
    rewrite H1. simpl. destruct (Z.eqb_spec rc 0); [contradiction|]. reflexivity. }
  rewrite Hfirst. cbn [fst snd]. repeat split; reflexivity.
Qed.

(** Whenever [run_cmd] hands an exit code back, zero or not,
    [update_trust_info] leaves the recipe in the state [UNTESTED] and
    returns [True] exactly when that exit code is zero; it runs the
    subprocess once. *)
Lemma update_trust_info_resets (r : Recipe) (w : World)
    (returncode : Z) (stdout stderr : string) (o : Outside Hidden) :
  shell_run_cmd (trust_cmd "update-trust-info" r) None (outside w)
    = (Ok (returncode, stdout, stderr), o) →
  ∃ r' w',
    update_trust_info (r, w) = (Ok (bool_decide (returncode = 0%Z)), (r', w'))
    ∧ _trusted r' = TrustInfoVerificationState.UNTESTED
    ∧ member_name (_trusted r') = "UNTESTED"
    ∧ trace w' = trace w ++ [EvRunCmd (trust_cmd "update-trust-info" r) None].
Proof.
  intros Hrun. eexists _, _.
  split; [|split; [|split]].
  - unfold update_trust_info. st_unfold. rewrite Hrun. simpl.
    destruct (Z.eqb_spec returncode 0) as [->|Hne].
    + reflexivity.
    + rewrite bool_decide_eq_false_2 by exact Hne. reflexivity.
  - reflexivity.
  - reflexivity.
  - reflexivity.
Qed.

(** When [run_cmd] itself raises, the exception leaves
    [update_trust_info] before the reset of line 543: the state stays. *)
Lemma update_trust_info_run_cmd_raises (r : Recipe) (w : World) (e : exn) (o : Outside Hidden) :
  shell_run_cmd (trust_cmd "update-trust-info" r) None (outside w) = (Raise e, o) →
  ∃ w', update_trust_info (r, w) = (Raise e, (r, w')).
Proof.
  intros Hrun. eexists. unfold update_trust_info. st_unfold. rewrite Hrun. simpl.
  destruct r. reflexivity.
Qed.

(** The runner that honours [check] hands every exit code back to a
    caller that passed [check=False]. *)
Lemma checked_run_cmd_unchecked {H : Type}
    (execute : list string → Outside H → (Z * string * string) * Outside H)
    (failure : Z → exn) (cmd : list string) (o : Outside H) :
  checked_run_cmd execute failure cmd (Some false) o
  = ((Ok (execute cmd o).1), (execute cmd o).2).
Proof. unfold checked_run_cmd. destruct (execute cmd o) as [result o']. reflexivity. Qed.

(** The sibling of line 576 passes [check=False]: under the runner that
    honours [check], a non-zero exit of the verification is the state
    [FAILED] and the answer [False], not an exception. *)
Lemma verify_trust_info_nonzero_exit_fails
    (execute : list string → Outside Hidden → (Z * string * string) * Outside Hidden)
    (failure : Z → exn) (r : Recipe) (w : World)
    (rc : Z) (stdout stderr : string) (o : Outside Hidden) :
  (∀ cmd check o', shell_run_cmd cmd check o' = checked_run_cmd execute failure cmd check o') →
  _trusted r = TrustInfoVerificationState.UNTESTED →
  execute (verify_cmd r (settings w)) (outside w) = ((rc, stdout, stderr), o) →
  rc ≠ 0%Z →
  ∃ r' w',
    verify_trust_info (r, w) = (Ok (PBool false), (r', w'))
    ∧ _trusted r' = TrustInfoVerificationState.FAILED.
Proof.
  intros Hrunner Hun Hexec Hrc.
  assert (Hrun : shell_run_cmd (verify_cmd r (settings w)) (Some false) (outside w)
                 = (Ok (rc, stdout, stderr), o)).
  { rewrite Hrunner, checked_run_cmd_unchecked, Hexec. reflexivity. }
  eexists _, _. split.
  - unfold verify_trust_info, verify_cmd in *. st_unfold. rewrite Hun. simpl.
    rewrite Hrun. simpl. destruct (Z.eqb_spec rc 0); [contradiction|]. reflexivity.
  - reflexivity.
Qed.

(** C4, against the code. Line 540 calls [run_cmd(cmd)] and passes no
    [check], where the three other call sites (lines 482, 512, 576) pass
    [check=False] before they test the exit code. Under a runner that
    honours [check] the exit code zero resets the state to [UNTESTED] and
    returns [True], as the claim says; a non-zero exit code makes
    [update_trust_info] raise the runner's exception at line 540: no
    boolean is returned, the reset of line 543 is not reached, and the
    recipe and its trust state are what they were. The subprocess has run
    once either way. *)
Theorem update_trust_info_nonzero_exit_raises
    (execute : list string → Outside Hidden → (Z * string * string) * Outside Hidden)
    (failure : Z → exn) (r : Recipe) (w : World)
    (rc : Z) (stdout stderr : string) (o : Outside Hidden) :
  (∀ cmd check o', shell_run_cmd cmd check o' = checked_run_cmd execute failure cmd check o') →
  execute (trust_cmd "update-trust-info" r) (outside w) = ((rc, stdout, stderr), o) →
  let w' := {| outside := o; settings := settings w;
               trace := trace w ++ [EvRunCmd (trust_cmd "update-trust-info" r) None] |} in
  (rc = 0%Z →
   ∃ r', update_trust_info (r, w) = (Ok true, (r', w'))
         ∧ _trusted r' = TrustInfoVerificationState.UNTESTED)
  ∧ (rc ≠ 0%Z → update_trust_info (r, w) = (Raise (failure rc), (r, w'))).
Proof.
  intros Hrunner Hexec w'.
  assert (Hrun : shell_run_cmd (trust_cmd "update-trust-info" r) None (outside w)
                 = checked_run_cmd execute failure (trust_cmd "update-trust-info" r) None
                     (outside w)) by apply Hrunner.
  unfold checked_run_cmd in Hrun. rewrite Hexec in Hrun. simpl in Hrun.
  split.
  - intros ->. simpl in Hrun. eexists. split.
    + unfold update_trust_info. st_unfold. rewrite Hrun. reflexivity.
    + reflexivity.
  - intros Hrc. destruct (Z.eqb_spec rc 0) as [|_]; [contradiction|]. simpl in Hrun.
    unfold update_trust_info. st_unfold. rewrite Hrun. simpl. destruct r. reflexivity.
Qed.

(** *** The parser and the accessors *)

(** A document the decoder accepts is the recipe's contents, as decoded:
    its [Identifier] is the document's. *)
Lemma parse_value (path : Path) (s : string) (v : PyVal) :
  (yaml_safe_load s = DecValue v → _get_contents_yaml path s = Ok v)
  ∧ (plistlib_loads s = DecValue v → _get_contents_plist path s = Ok v).
Proof.
  unfold _get_contents_yaml, _get_contents_plist.
  split; intros ->; reflexivity.
Qed.

(** A document the decoder rejects with its own error class fails with
    the content error of the format, which carries the path. *)
Lemma parse_invalid (path : Path) (s : string) :
  (yaml_safe_load s = DecInvalid → _get_contents_yaml path s = Raise (InvalidYamlContents path))
  ∧ (plistlib_loads s = DecInvalid → _get_contents_plist path s = Raise (InvalidPlistContents path)).
Proof.
  unfold _get_contents_yaml, _get_contents_plist.
  split; intros ->; reflexivity.
Qed.

(** C7, at the input where it fails. [_get_contents_plist] catches
    [plistlib.InvalidFileException] only. A property list on which
    [plistlib.loads] raises another class (ill-formed XML comes out of the
    Expat parser as [ExpatError]) fails with that error, not with
    [InvalidPlistContents]. *)
Theorem plist_error_of_another_class_escapes (path : Path) (s cls : string) :
  plistlib_loads s = DecOther cls →
  _get_contents_plist path s = Raise (Foreign cls)
  ∧ _get_contents_plist path s ≠ Raise (InvalidPlistContents path).
Proof.
  intros H. unfold _get_contents_plist. rewrite H. split; [reflexivity|discriminate].
Qed.

(** C8. On a parsed recipe with an [Input] mapping, the [input_name]
    accessor raises [RecipeInputException] exactly when the mapping has no
    [NAME] key and returns the mapped value when it has one. Parsing does
    not look at the key: the decoded document is accepted as it is, and
    neither parser ever raises [RecipeInputException]. *)
Theorem input_name_spec (r : Recipe) (doc inp : gmap string PyVal) :
  _contents r = PDict doc →
  doc !! "Input" = Some (PDict inp) →
  (inp !! "NAME" = None ↔ input_name r = Raise (RecipeInputException (_path r)))
  ∧ (∀ v, inp !! "NAME" = Some v → input_name r = Ok v)
  ∧ (∀ path s, yaml_safe_load s = DecValue (_contents r) →
               _get_contents_yaml path s = Ok (_contents r))
  ∧ (∀ path s, plistlib_loads s = DecValue (_contents r) →
               _get_contents_plist path s = Ok (_contents r))
  ∧ (∀ path s p, _get_contents_yaml path s ≠ Raise (RecipeInputException p)
                 ∧ _get_contents_plist path s ≠ Raise (RecipeInputException p)).
Proof.
  intros Hdoc Hinp. unfold input_name. rewrite Hdoc. simpl. rewrite Hinp. simpl.
  split; [|split; [|split; [|split]]].
  - destruct (inp !! "NAME"); split; intros; (discriminate || reflexivity).
  - intros v ->. reflexivity.
  - intros path s H. apply parse_value. exact H.
  - intros path s H. apply parse_value. exact H.
  - intros path s p. unfold _get_contents_yaml, _get_contents_plist.
    destruct (yaml_safe_load s); destruct (plistlib_loads s); split; discriminate.
Qed.

(** *** Download paths *)

(** C9, at the input where it fails: one downloaded item without a
    [download_path] key. The subscript of line 312 raises [KeyError]. *)
Theorem extract_download_paths_missing_key :
  _extract_download_paths [ (∅ : gmap string string) ] = Raise (KeyError "download_path").
Proof. reflexivity. Qed.

Lemma extract_download_paths_empty : _extract_download_paths [] = Ok [].
Proof. reflexivity. Qed.

(** When the extraction returns, it returns one path per item, the value
    of its [download_path], in the order of the items. *)
Lemma extract_download_paths_ok (items : list (gmap string string)) (paths : list string) :
  _extract_download_paths items = Ok paths →
  Forall2 (λ item p, item !! "download_path" = Some p) items paths.
Proof.
  unfold _extract_download_paths.
  assert (H : ∀ l ps, mapM_res (λ item, getitem item "download_path") l = Ok ps →
                      Forall2 (λ item p, item !! "download_path" = Some p) l ps).
  { induction l as [|x l IH]; intros ps; simpl.
    - intros [= <-]. constructor.
    - unfold getitem at 1. destruct (x !! "download_path") eqn:Hx; [|discriminate].
      destruct (mapM_res _ l) as [ys|] eqn:Hl; [|discriminate].
      intros [= <-]. constructor; [exact Hx|]. apply IH. reflexivity. }
  destruct items; [intros [= <-]; constructor|]. apply H.
Qed.

Lemma extract_download_paths_present (items : list (gmap string string)) :
  Forall (λ item, is_Some (item !! "download_path")) items →
  ∃ paths, _extract_download_paths items = Ok paths.
Proof.
  intros Hall.
  assert (H : ∃ ps, mapM_res (λ item, getitem item "download_path") items = Ok ps).
  { induction Hall as [|x l [p Hp] _ [ps IH]]; simpl.
    - eexists. reflexivity.
    - unfold getitem at 1. rewrite Hp, IH. eexists. reflexivity. }
  destruct H as [ps H]. unfold _extract_download_paths.
  destruct items; [eexists; reflexivity|]. exists ps. exact H.
Qed.

(** *** The execution pipeline *)

Lemma compile_report_trace (r r1 : Recipe) (w w1 : World) (out : ConsolidatedReport) :
  compile_report (r, w) = (Ok out, (r1, w1)) →
  trace w1 = trace w ++ [EvRefresh (report_file_path (_result r))]
  ∧ settings w1 = settings w ∧ same_recipe r r1.
Proof.
  unfold compile_report. st_unfold.
  destruct (refresh_contents _ _) as [[raw|e] o]; simpl; [|discriminate].
  destruct (consolidate_report raw); simpl; [|discriminate].
  intros [= <- <- <-]. simpl. repeat split; reflexivity.
Qed.

Lemma phase_trace (check : bool) (r r1 : Recipe) (w w1 : World) (out : ConsolidatedReport) :
  (if check then run_check_phase else run_full) (r, w) = (Ok out, (r1, w1)) →
  trace w1 = trace w ++ [EvRunCmd (_autopkg_run_cmd r (settings w) check) (Some false);
                         EvRefresh (report_file_path (_result r))]
  ∧ settings w1 = settings w ∧ same_recipe r r1.
Proof.
  intros H.
  assert (H' : ∃ w0, trace w0 = trace w ++ [EvRunCmd (_autopkg_run_cmd r (settings w) check) (Some false)]
                     ∧ settings w0 = settings w
                     ∧ compile_report (r, w0) = (Ok out, (r1, w1))).
  { destruct check; unfold run_check_phase, run_full in H; st_unfold;
      destruct (shell_run_cmd _ _ _) as [[x|e] o]; simpl in H; try discriminate;
      (eexists; split; [|split; [|exact H]]; reflexivity). }
  destruct H' as (w0 & Ht & Hs & Hc).
  apply compile_report_trace in Hc as (Ht1 & Hs1 & Hr).
  rewrite Ht1, Ht, Hs1, Hs, <- app_assoc. repeat split; try apply Hr. 
Qed.

Lemma save_cache_trace (cache_file : Path) (key : string) (cache : RecipeCache)
    (w w' : World) (res : Res unit) :
  save_cache cache_file key cache w = (res, w') →
  trace w' = trace w ++ [EvSave cache_file key cache] ∧ settings w' = settings w.
Proof.
  unfold save_cache, call. destruct (cache_save _ _ _ _) as [x o].
  intros [= <- <-]. split; reflexivity.
Qed.

Lemma get_metadata_for_item_trace (p : string) (w w' : World) (md : DownloadMetadata) :
  _get_metadata_for_item p w = (Ok md, w') →
  ∃ fetches, trace w' = trace w ++ fetches ∧ Forall (λ e, is_fetch e = true) fetches
             ∧ settings w' = settings w ∧ file_path md = p.
Proof.
  unfold _get_metadata_for_item. st_unfold.
  destruct (get_file_metadata _ _ _) as [[x1|e1] o1]; simpl; [|discriminate].
  destruct (get_file_size _ _) as [[x2|e2] o2]; simpl; [|discriminate].
  destruct (get_file_metadata _ _ o2) as [[x3|e3] o3]; simpl; [|discriminate].
  intros [= <- <-]. simpl. eexists. split; [|split; [|split]]; try reflexivity.
  - rewrite <- !app_assoc. reflexivity.
  - repeat constructor.
Qed.

Lemma gather_metadata_trace (paths : list string) (w w' : World) (mds : list DownloadMetadata) :
  gather _get_metadata_for_item paths w = (Ok mds, w') →
  ∃ fetches, trace w' = trace w ++ fetches ∧ Forall (λ e, is_fetch e = true) fetches
             ∧ settings w' = settings w ∧ file_path <$> mds = paths.
Proof.
  revert w w' mds. induction paths as [|p paths IH]; intros w w' mds; simpl.
  - unfold ret. intros [= <- <-]. exists []. rewrite app_nil_r. repeat split; constructor.
  - unfold bind at 1.
    destruct (_get_metadata_for_item p w) as [[md|e] w0] eqn:Hitem; [|discriminate].
    unfold bind at 1.
    destruct (gather _get_metadata_for_item paths w0) as [[ys|e] w1] eqn:Hrest; [|discriminate].
    unfold ret. intros [= <- <-].
    apply get_metadata_for_item_trace in Hitem as (f1 & Ht1 & Hf1 & Hs1 & Hp).
    apply IH in Hrest as (f2 & Ht2 & Hf2 & Hs2 & Hps).
    exists (f1 ++ f2). rewrite Ht2, Ht1, Hs2, Hs1, <- app_assoc, fmap_cons, Hp, Hps.
    repeat split; try reflexivity. apply Forall_app; split; assumption.
Qed.

(** A collection that completes has one entry per downloaded item: the
    entry of an item carries the item's [download_path]. Its calls are
    attribute fetches and nothing else. *)
Lemma get_metadata_trace (items : list (gmap string string)) (w w' : World) (cache : RecipeCache) :
  _get_metadata items w = (Ok cache, w') →
  length (metadata cache) = length items
  ∧ Forall2 (λ item md, item !! "download_path" = Some (file_path md)) items (metadata cache)
  ∧ settings w' = settings w
  ∧ ∃ fetches, trace w' = trace w ++ fetches ∧ Forall (λ e, is_fetch e = true) fetches.
Proof.
  unfold _get_metadata. unfold bind at 1. unfold lift_res.
  destruct (_extract_download_paths items) as [paths|e] eqn:Hpaths; [|discriminate].
  unfold bind at 1.
  destruct (gather _get_metadata_for_item paths w) as [[mds|e] w0] eqn:Hg; [|discriminate].
  st_unfold. destruct (now_str _) as [now h]. intros [= <- <-]. simpl.
  apply gather_metadata_trace in Hg as (fetches & Ht & Hf & Hs & Hps).
  apply extract_download_paths_ok in Hpaths. subst paths.
  assert (H2 : Forall2 (λ item md, item !! "download_path" = Some (file_path md)) items mds).
  { apply Forall2_fmap_r in Hpaths. exact Hpaths. }
  split; [symmetry; eapply Forall2_length; exact H2|].
  split; [exact H2|]. split; [exact Hs|]. exists fetches. split; assumption.
Qed.

(** The two commands of [_autopkg_run_cmd] are told apart by their last
    argument. *)
Lemma check_cmd_is_not_full_phase (r : Recipe) (s : Settings.SettingsImpl) (c : option bool) :
  is_full_phase (EvRunCmd (_autopkg_run_cmd r s true) c) = false.
Proof.
  unfold is_full_phase, _autopkg_run_cmd.
  rewrite (bool_decide_eq_true_2 (last _ = Some "--check")); [apply andb_false_r|].
  rewrite app_assoc. apply last_snoc.
Qed.

Lemma verbosity_str_is_not_check (s : Settings.SettingsImpl) (delta : Z) :
  (0 < Settings.verbosity_int s delta)%Z → Settings.verbosity_str s delta ≠ "--check".
Proof.
  unfold Settings.verbosity_int, Settings.verbosity_str.
  destruct (Z.leb_spec (Settings._verbosity_level s + delta) 0); [lia|]. intros _.
  destruct (Z.to_nat (Settings._verbosity_level s + delta)) eqn:Hn; [lia|].
  simpl. discriminate.
Qed.

Lemma full_cmd_is_full_phase (r : Recipe) (s : Settings.SettingsImpl) (c : option bool) :
  is_full_phase (EvRunCmd (_autopkg_run_cmd r s false) c) = true.
Proof.
  unfold is_full_phase, _autopkg_run_cmd. rewrite app_nil_r.
  apply andb_true_intro. split; [apply bool_decide_eq_true_2; reflexivity|].
  apply negb_true_iff, bool_decide_eq_false_2.
  destruct (Z.ltb_spec 0 (Settings.verbosity_int s (-1))) as [Hv|Hv]; simpl.
  - intros [= H]. exact (verbosity_str_is_not_check s (-1) Hv H).
  - discriminate.
Qed.

Lemma count_app (f : Event → bool) (l1 l2 : list Event) :
  count f (l1 ++ l2) = (count f l1 + count f l2)%nat.
Proof. unfold count. rewrite List.filter_app, length_app. reflexivity. Qed.

Lemma count_fetches (f : Event → bool) (fetches : list Event) :
  (∀ e, is_fetch e = true → f e = false) →
  Forall (λ e, is_fetch e = true) fetches →
  count f fetches = 0%nat.
Proof.
  intros Hf Hall. unfold count. induction Hall as [|e l He _ IH]; [reflexivity|].
  simpl. rewrite (Hf e He). exact IH.
Qed.

(** C1. When the report compiled after the check phase has no downloaded
    item, [run()] returns that report and stops there: the check command
    (the one that ends with [--check]) and the reading of the report are
    all it has done, and no full-phase subprocess was invoked. *)
Theorem run_without_downloads (r r1 : Recipe) (w w1 : World) (out : ConsolidatedReport) :
  run_check_phase (r, w) = (Ok out, (r1, w1)) →
  downloaded_items out = [] →
  let done := [EvRunCmd (_autopkg_run_cmd r (settings w) true) (Some false);
               EvRefresh (report_file_path (_result r))] in
  run (r, w) = (Ok out, (r1, w1))
  ∧ trace w1 = trace w ++ done
  ∧ last (_autopkg_run_cmd r (settings w) true) = Some "--check"
  ∧ count is_full_phase done = 0%nat.
Proof.
  intros Hcheck Hnone done.
  split; [|split; [|split]].
  - unfold run. unfold bind at 1. rewrite Hcheck. rewrite Hnone. reflexivity.
  - apply (phase_trace true) in Hcheck as (Ht & _ & _). exact Ht.
  - unfold _autopkg_run_cmd. rewrite app_assoc. apply last_snoc.
  - unfold done, count. cbn [List.filter]. rewrite check_cmd_is_not_full_phase. reflexivity.
Qed.

(** Items that all carry a [download_path] give their paths, in order. *)
Lemma extract_download_paths_complete (items : list (gmap string string)) (paths : list string) :
  Forall2 (λ item p, item !! "download_path" = Some p) items paths →
  _extract_download_paths items = Ok paths.
Proof.
  intros Hall.
  assert (H : mapM_res (λ item, getitem item "download_path") items = Ok paths).
  { induction Hall as [|item p items paths Hp _ IH]; [reflexivity|].
    simpl. unfold getitem at 1. rewrite Hp, IH. reflexivity. }
  unfold _extract_download_paths. destruct items; [|exact H].
  inversion Hall. reflexivity.
Qed.

(** When the attribute helpers answer for every path, the collection
    returns their entries, leaves the outside where the last helper left
    it, and has made the three calls of each item in turn. *)
Lemma gather_fetches_all (paths : list string) (o o' : Outside Hidden)
    (mds : list DownloadMetadata) :
  fetches_all paths o mds o' →
  ∀ (s : Settings.SettingsImpl) (t : list Event),
    gather _get_metadata_for_item paths {| outside := o; settings := s; trace := t |}
    = (Ok mds, {| outside := o'; settings := s; trace := t ++ (paths ≫= item_fetches) |}).
Proof.
  induction 1 as [o|p ps o o1 o2 o3 o' tag modified size mds H1 H2 H3 _ IH]; intros s t.
  - simpl. unfold ret. rewrite app_nil_r. reflexivity.
  - cbn [gather]. unfold bind at 1.
    assert (Hitem : _get_metadata_for_item p {| outside := o; settings := s; trace := t |}
      = (Ok {| etag := tag; file_size := size; last_modified := modified; file_path := p |},
         {| outside := o3; settings := s; trace := t ++ item_fetches p |})).
    { unfold _get_metadata_for_item, item_fetches. st_unfold.
      rewrite H1. simpl. rewrite H2. simpl. rewrite H3. simpl.
      rewrite <- !app_assoc. reflexivity. }
    rewrite Hitem. unfold bind at 1. rewrite IH. unfold ret.
    rewrite bind_cons, app_assoc. reflexivity.
Qed.

Lemma fetches_all_paths (paths : list string) (o o' : Outside Hidden)
    (mds : list DownloadMetadata) :
  fetches_all paths o mds o' → file_path <$> mds = paths.
Proof.
  induction 1 as [|? ? ? ? ? ? ? ? ? ? ? _ _ _ _ IH]; [reflexivity|].
  rewrite fmap_cons, IH. reflexivity.
Qed.

Lemma fetches_of_paths (paths : list string) :
  Forall (λ e, is_fetch e = true) (paths ≫= item_fetches).
Proof.
  induction paths as [|p paths IH]; [constructor|].
  rewrite bind_cons. apply Forall_app. split; [repeat constructor|exact IH].
Qed.

(** One phase, from what the shell runner and the report answer. *)
Lemma phase_completes (check : bool) (r : Recipe) (w : World)
    (result : Z * string * string) (o1 o2 : Outside Hidden)
    (raw : RawReport) (out : ConsolidatedReport) :
  shell_run_cmd (_autopkg_run_cmd r (settings w) check) (Some false) (outside w)
    = (Ok result, o1) →
  refresh_contents (report_file_path (_result r)) o1 = (Ok raw, o2) →
  consolidate_report raw = Ok out →
  (if check then run_check_phase else run_full) (r, w)
  = (Ok out,
     ({| _name := _name r; _path := _path r; _format := _format r; _contents := _contents r;
         _trusted := _trusted r;
         _result := {| report_file_path := report_file_path (_result r);
                       report_contents := Some raw |} |},
      {| outside := o2; settings := settings w;
         trace := trace w ++ [EvRunCmd (_autopkg_run_cmd r (settings w) check) (Some false);
                              EvRefresh (report_file_path (_result r))] |})).
Proof.
  intros Hcmd Hread Hreport.
  destruct check; unfold run_check_phase, run_full, compile_report; st_unfold;
    rewrite Hcmd; simpl; rewrite Hread; simpl; rewrite Hreport; simpl;
    rewrite <- app_assoc; reflexivity.
Qed.

(** C2, as the code has it. Let the report compiled after the check
    phase have N >= 1 downloaded items, each with a [download_path], and
    let every collaborator answer: the three attribute helpers for each
    item, the clock, the cache store, the shell runner and the report of
    the full phase. Then [run()] collects N [DownloadMetadata] entries,
    the i-th carrying the download path of the i-th item, and hands the
    cache store one [RecipeCache] with them and the time stamp, under the
    cache file of the settings and the file name of the recipe. The store
    is called on the outside as the last attribute helper and the clock
    left it; the full phase runs on the outside the store left behind, so
    after the save has completed, and runs once; [run()] returns the
    report compiled after it. The calls, in order: the check command, the
    report, three attribute calls per item, the save, the full command,
    the report. *)
Theorem run_with_downloads (r : Recipe) (w : World)
    (check_result full_result : Z * string * string)
    (o1 o2 o3 o4 o5 o6 : Outside Hidden) (raw1 raw2 : RawReport)
    (out full : ConsolidatedReport) (paths : list string) (mds : list DownloadMetadata)
    (stamp : string) (h : Hidden) :
  let report := report_file_path (_result r) in
  let check_cmd := _autopkg_run_cmd r (settings w) true in
  let full_cmd := _autopkg_run_cmd r (settings w) false in
  let cache_file := Settings._cache_file (settings w) in
  let cache := {| timestamp := stamp; metadata := mds |} in
  shell_run_cmd check_cmd (Some false) (outside w) = (Ok check_result, o1) →
  refresh_contents report o1 = (Ok raw1, o2) →
  consolidate_report raw1 = Ok out →
  downloaded_items out ≠ [] →
  Forall2 (λ item p, item !! "download_path" = Some p) (downloaded_items out) paths →
  fetches_all paths o2 mds o3 →
  now_str (hidden o3) = (stamp, h) →
  cache_save cache_file (path_name (_path r)) cache {| disk := disk o3; hidden := h |}
    = (Ok tt, o4) →
  shell_run_cmd full_cmd (Some false) o4 = (Ok full_result, o5) →
  refresh_contents report o5 = (Ok raw2, o6) →
  consolidate_report raw2 = Ok full →
  let done :=
    [EvRunCmd check_cmd (Some false); EvRefresh report]
    ++ (paths ≫= item_fetches)
    ++ [EvSave cache_file (path_name (_path r)) cache;
        EvRunCmd full_cmd (Some false);
        EvRefresh report] in
  ∃ r',
    run (r, w)
    = (Ok full, (r', {| outside := o6; settings := settings w; trace := trace w ++ done |}))
    ∧ same_recipe r r'
    ∧ report_contents (_result r') = Some raw2
    ∧ length mds = length (downloaded_items out)
    ∧ Forall2 (λ item md, item !! "download_path" = Some (file_path md))
        (downloaded_items out) mds
    ∧ count is_save done = 1%nat
    ∧ count is_full_phase done = 1%nat.
Proof.
  intros report check_cmd full_cmd cache_file cache
    Hcheck Hread1 Hreport1 Hsome Hpaths Hfetch Hnow Hsave Hfull Hread2 Hreport2 done.
  pose proof (phase_completes true r w _ _ _ _ _ Hcheck Hread1 Hreport1) as Hphase1.
  set (r1 := {| _name := _name r; _path := _path r; _format := _format r;
                _contents := _contents r; _trusted := _trusted r;
                _result := {| report_file_path := report; report_contents := Some raw1 |} |}).
  set (w3 := {| outside := o4; settings := settings w;
                trace := (trace w ++ [EvRunCmd check_cmd (Some false); EvRefresh report])
                         ++ (paths ≫= item_fetches)
                         ++ [EvSave cache_file (path_name (_path r)) cache] |}).
  pose proof (phase_completes false r1 w3 _ _ _ _ _ Hfull Hread2 Hreport2) as Hphase2.
  assert (Hmeta : _get_metadata (downloaded_items out)
            {| outside := o2; settings := settings w;
               trace := trace w ++ [EvRunCmd check_cmd (Some false); EvRefresh report] |}
          = (Ok cache,
             {| outside := {| disk := disk o3; hidden := h |}; settings := settings w;
                trace := (trace w ++ [EvRunCmd check_cmd (Some false); EvRefresh report])
                         ++ (paths ≫= item_fetches) |})).
  { unfold _get_metadata. unfold bind at 1. unfold lift_res.
    rewrite (extract_download_paths_complete _ _ Hpaths).
    unfold bind at 1. rewrite (gather_fetches_all _ _ _ _ Hfetch).
    st_unfold. rewrite Hnow. reflexivity. }
  eexists. split; [|split; [|split; [|split; [|split; [|split]]]]].
  - unfold run. unfold bind at 1. fold report check_cmd in Hphase1. rewrite Hphase1.
    destruct (downloaded_items out) as [|item items] eqn:Hitems; [contradiction|].
    unfold bind at 1. unfold liftW at 1. cbn [fst snd]. rewrite Hmeta.
    unfold bind at 1, this at 1. unfold bind at 1, the_settings at 1. cbn [fst snd].
    unfold bind at 1, liftW at 1. cbn [fst snd].
    unfold save_cache, call. cbn [outside settings trace]. unfold name. cbn [_path].
    fold cache_file. rewrite Hsave. cbn [fst snd].
    fold r1. rewrite <- app_assoc. fold w3. rewrite Hphase2.
    unfold w3, done. cbn [settings trace outside _result report_file_path r1 _name _path
      _format _contents _trusted].
    rewrite <- !app_assoc. reflexivity.
  - repeat split; reflexivity.
  - reflexivity.
  - apply Forall2_length in Hpaths. rewrite Hpaths.
    rewrite <- (fetches_all_paths _ _ _ _ Hfetch), length_fmap. reflexivity.
  - rewrite <- (fetches_all_paths _ _ _ _ Hfetch) in Hpaths.
    apply Forall2_fmap_r in Hpaths. exact Hpaths.
  - unfold done. rewrite !count_app.
    rewrite (count_fetches is_save (paths ≫= item_fetches)); [reflexivity| |].
    + intros [] ?; (reflexivity || discriminate).
    + apply fetches_of_paths.
  - unfold done. rewrite !count_app.
    rewrite (count_fetches is_full_phase (paths ≫= item_fetches)).
    + unfold count. cbn [List.filter].
      unfold check_cmd, full_cmd.
      rewrite check_cmd_is_not_full_phase, full_cmd_is_full_phase. reflexivity.
    + intros [] ?; (reflexivity || discriminate).
    + apply fetches_of_paths.
Qed.

(** A save that fails ends the run: the full phase is not invoked. *)
Lemma run_save_failure (r r1 : Recipe) (w w1 w2 w3 : World)
    (out : ConsolidatedReport) (cache : RecipeCache) (e : exn) :
  run_check_phase (r, w) = (Ok out, (r1, w1)) →
  downloaded_items out ≠ [] →
  _get_metadata (downloaded_items out) w1 = (Ok cache, w2) →
  save_cache (Settings._cache_file (settings w2)) (name r1) cache w2 = (Raise e, w3) →
  run (r, w) = (Raise e, (r1, w3)).
Proof.
  intros Hcheck Hsome Hmeta Hsave.
  unfold run. unfold bind at 1. rewrite Hcheck.
  destruct (downloaded_items out) as [|item items] eqn:Hitems; [contradiction|].
  unfold bind at 1. unfold liftW at 1. cbn [fst snd]. rewrite Hmeta.
  unfold bind at 1, this at 1. unfold bind at 1, the_settings at 1. cbn [fst snd].
  unfold bind at 1, liftW at 1. cbn [fst snd]. rewrite Hsave. reflexivity.
Qed.

(** *** The locator *)







(** Override directories come first. *)
Lemma override_dirs_first (fs : FS) (filenames : list string) :
  search_dirs fs lookup_dirs filenames
  = match search_dirs fs recipe_override_dirs filenames with
    | Ok None => search_dirs fs recipe_search_dirs filenames
    | decided => decided
    end.
Proof.
  unfold lookup_dirs. induction recipe_override_dirs as [|d ds IH]; [reflexivity|].
  simpl. destruct (search_filenames fs (expanduser d) filenames) as [[p|]|e];
    [reflexivity|exact IH|reflexivity].
Qed.




(** *** The report path of the constructor *)

Lemma string_length_app (s t : string) :
  String.length (s +:+ t) = (String.length s + String.length t)%nat.
Proof. induction s as [|c s IH]; simpl; [reflexivity|]. rewrite IH. reflexivity. Qed.

Lemma string_app_inj_r (s1 s2 t : string) : s1 +:+ t = s2 +:+ t → s1 = s2.
Proof.
  revert s2. induction s1 as [|c s1 IH]; intros [|d s2] H.
  - reflexivity.
  - apply (f_equal String.length) in H. rewrite (string_length_app (String d s2) t) in H.
    change (String.length ("" +:+ t)) with (String.length t) in H. simpl in H. lia.
  - apply (f_equal String.length) in H. rewrite (string_length_app (String c s1) t) in H.
    change (String.length ("" +:+ t)) with (String.length t) in H. simpl in H. lia.
  - change (String c (s1 +:+ t) = String d (s2 +:+ t)) in H.
    injection H as -> H. f_equal. apply IH. exact H.
Qed.

Lemma numbered_eq (original : Path) (counter : nat) :
  numbered original counter
  = path_parent original
    ++ [(path_stem original +:+ "_" +:+ pretty counter) +:+ path_suffix original].
Proof. reflexivity. Qed.

(** Distinct counters give distinct candidates. *)
Lemma numbered_inj (original : Path) : Inj (=) (=) (numbered original).
Proof.
  intros c1 c2 H. rewrite !numbered_eq in H.
  apply app_inj_tail in H as [_ H].
  apply string_app_inj_r in H.
  apply (inj (String.app (path_stem original))) in H.
  apply (inj (String.app "_")) in H.
  apply (inj pretty) in H. exact H.
Qed.

Lemma numbered_parent (original : Path) (counter : nat) :
  path_parent (numbered original counter) = path_parent original.
Proof. rewrite numbered_eq. apply removelast_last. Qed.

(** The loop returns a path that does not exist, either the one it was
    given or a numbered candidate. *)
Lemma scan_report_path_Some (fuel : nat) (fs : FS) (original report_path q : Path) (counter : nat) :
  scan_report_path fuel fs original report_path counter = Some q →
  path_exists fs q = false ∧ (q = report_path ∨ ∃ k, q = numbered original k).
Proof.
  revert report_path counter. induction fuel as [|fuel IH]; intros p c; simpl; [discriminate|].
  destruct (path_exists fs p) eqn:Hex.
  - intros H. apply IH in H as [Hfree [->|[k ->]]]; split; eauto.
  - intros [= <-]. split; [exact Hex|left; reflexivity].
Qed.

(** It gives up only when every candidate it tested exists. *)
Lemma scan_report_path_None (fuel : nat) (fs : FS) (original report_path : Path) (counter : nat) :
  scan_report_path (S fuel) fs original report_path counter = None →
  Forall (λ q, path_exists fs q = true) (numbered original <$> seq counter fuel).
Proof.
  revert report_path counter. induction fuel as [|fuel IH]; intros p c; [constructor|].
  cbn [scan_report_path]. destruct (path_exists fs p); [|discriminate].
  destruct (path_exists fs (numbered original c)) eqn:Hex; [|discriminate].
  intros H. cbn [seq fmap list_fmap]. constructor; [exact Hex|].
  replace (S c) with (c + 1)%nat by lia.
  apply (IH (numbered original c) (c + 1)%nat). cbn [scan_report_path]. rewrite Hex. exact H.
Qed.

(** The loop of lines 127-131 ends: a disk with [size fs] paths cannot
    hold [size fs + 1] distinct candidates. *)
Lemma free_report_path_total (fs : FS) (report_path : Path) :
  ∃ q, scan_report_path (size fs + 2) fs report_path report_path 1 = Some q.
Proof.
  destruct (scan_report_path _ _ _ _ _) as [q|] eqn:Hscan; [eauto|exfalso].
  replace (size fs + 2)%nat with (S (size fs + 1)) in Hscan by lia.
  apply scan_report_path_None in Hscan.
  set (l := numbered report_path <$> seq 1 (size fs + 1)) in *.
  assert (Hnd : NoDup l).
  { apply (NoDup_fmap_2 (numbered report_path) (Inj0 := numbered_inj report_path)).
    apply NoDup_seq. }
  assert (Hsub : list_to_set (C := gset Path) l ⊆ dom fs).
  { intros q Hq. apply elem_of_list_to_set in Hq.
    rewrite Forall_forall in Hscan. specialize (Hscan q Hq).
    unfold path_exists in Hscan. apply bool_decide_eq_true_1 in Hscan.
    apply elem_of_dom. exact Hscan. }
  apply subseteq_size in Hsub.
  rewrite size_list_to_set in Hsub by exact Hnd.
  pose proof (size_dom (fs : gmap Path Node)) as Hdom. unfold FS in *.
  rewrite Hdom in Hsub.
  unfold l in Hsub. rewrite length_fmap, length_seq in Hsub. lia.
Qed.

Lemma free_report_path_spec (fs : FS) (dir : Path) (filename : string) :
  let q := free_report_path fs (path_join dir filename) in
  path_exists fs q = false ∧ path_parent q = dir.
Proof.
  cbn zeta. unfold free_report_path.
  destruct (free_report_path_total fs (path_join dir filename)) as [q Hq].
  rewrite Hq. simpl.
  apply scan_report_path_Some in Hq as [Hfree Hq]. split; [exact Hfree|].
  assert (Hp : path_parent (path_join dir filename) = dir) by apply removelast_last.
  destruct Hq as [->|[k ->]]; [exact Hp|]. rewrite numbered_parent. exact Hp.
Qed.

(** [mkdir] changes the disk at the path and its ancestors only. *)
Lemma mkdir_each_other (target : Path) (ps : list Path) (fs fs' : FS) (res : Res unit)
    (q : Path) :
  mkdir_each target ps fs = (res, fs') → q ∉ ps → fs' !! q = fs !! q.
Proof.
  revert fs. induction ps as [|p ps IH]; intros fs; simpl.
  - intros [= _ <-] _. reflexivity.
  - intros H Hq. apply not_elem_of_cons in Hq as [Hne Hq].
    destruct (fs !! p) as [[c|]|] eqn:Hp.
    + injection H as _ <-. reflexivity.
    + apply IH; assumption.
    + rewrite (IH _ H Hq). apply lookup_insert_ne. congruence.
Qed.

Lemma not_own_ancestor (dir : Path) (filename : string) :
  dir ++ [filename] ∉ ancestors_and_self dir.
Proof.
  unfold ancestors_and_self. intros H.
  apply list_elem_of_fmap in H as (n & Heq & _).
  apply (f_equal length) in Heq. rewrite length_app, length_take in Heq.
  cbn [length] in Heq. lia.
Qed.

(** What a successful construction has done: the disk it scanned is the
    disk it was given, and the report path it keeps is the free path found
    in the report directory. *)
Lemma init_report_path (recipe_name : string) (report_dir : option Path)
    (w w' : World) (r : Recipe) :
  __init__ recipe_name report_dir w = (Ok r, w') →
  let dir := default (Settings._report_dir (settings w)) report_dir in
  let rp := report_file_path (_result r) in
  path_exists (disk (outside w)) rp = false
  ∧ path_parent rp = dir
  ∧ path_exists (disk (outside w')) rp = false
  ∧ trace w' = trace w.
Proof.
  unfold __init__, find_recipe, _get_contents, mkdir. st_unfold.
  destruct (search_dirs _ _ _) as [[path|]|e]; simpl; [|discriminate|discriminate].
  destruct (format path) as [fmt|]; simpl; [|discriminate].
  destruct (read_text _ _) as [text|]; simpl; [|discriminate].
  destruct (match fmt with YAML => _ | PLIST => _ end) as [[contents|] w0] eqn:Hparse;
    [|discriminate].
  assert (w0 = w) as ->.
  { destruct fmt; unfold lift_res in Hparse; congruence. }
  destruct (now_strftime _) as [now h]. simpl.
  set (dir := default (Settings._report_dir (settings w)) report_dir).
  set (filename := "report_" +:+ now +:+ "_" +:+ path_name path +:+ ".plist").
  destruct (free_report_path_spec (disk (outside w)) dir filename) as [Hfree Hparent].
  set (rp := free_report_path (disk (outside w)) (path_join dir filename)) in *.
  destruct (mkdir_parents_exist_ok (path_parent rp) (disk (outside w))) as [[[]|] fs'] eqn:Hmk;
    simpl; [|discriminate].
  intros [= <- <-]. simpl. split; [exact Hfree|]. split; [exact Hparent|]. split; [|reflexivity].
  unfold mkdir_parents_exist_ok in Hmk.
  unfold path_exists in *. apply bool_decide_eq_false_2.
  apply bool_decide_eq_false_1 in Hfree.
  rewrite (mkdir_each_other _ _ _ _ _ rp Hmk); [exact Hfree|].
  assert (Hrp : rp = path_parent rp ++ [path_name rp]).
  { unfold path_parent, path_name. apply app_removelast_last.
    intros Hnil. rewrite Hnil in Hparent. unfold path_parent in Hparent. simpl in Hparent.
    unfold rp, free_report_path in Hnil.
    destruct (free_report_path_total (disk (outside w)) (path_join dir filename)) as [q Hq].
    rewrite Hq in Hnil. simpl in Hnil. subst q.
    apply scan_report_path_Some in Hq as [_ [Hq|[k Hq]]].
    - unfold path_join in Hq. destruct dir; discriminate.
    - rewrite numbered_eq in Hq. destruct (path_parent (path_join dir filename)); discriminate. }
  rewrite Hrp at 1. apply not_own_ancestor.
Qed.

(** C5, as the code has it. The constructor keeps a report path in the
    report directory (the one passed, or the one of the settings) under
    which nothing exists when it is constructed, and it does not create
    the file. So two constructions get distinct report paths whenever the
    report of the first exists on disk by the time the second is
    constructed. *)
Theorem report_path_is_free (name1 name2 : string) (dir1 dir2 : option Path)
    (w1 w1' w2 w2' : World) (r1 r2 : Recipe) :
  __init__ name1 dir1 w1 = (Ok r1, w1') →
  __init__ name2 dir2 w2 = (Ok r2, w2') →
  let rp1 := report_file_path (_result r1) in
  let rp2 := report_file_path (_result r2) in
  path_exists (disk (outside w1)) rp1 = false
  ∧ path_exists (disk (outside w2)) rp2 = false
  ∧ path_parent rp1 = default (Settings._report_dir (settings w1)) dir1
  ∧ path_parent rp2 = default (Settings._report_dir (settings w2)) dir2
  ∧ path_exists (disk (outside w1')) rp1 = false
  ∧ (path_exists (disk (outside w2)) rp1 = true → rp1 ≠ rp2).
Proof.
  intros H1 H2.
  apply init_report_path in H1 as (Hfree1 & Hdir1 & Hafter1 & _).
  apply init_report_path in H2 as (Hfree2 & Hdir2 & _ & _).
  cbn zeta. repeat split; try assumption.
  intros Hex Heq. rewrite Heq in Hex. rewrite Hfree2 in Hex. discriminate.
Qed.

End RecipeFacts.

(** ** More on the recipe *)

Section RecipeMore.
Context `{C : Collaborators}.

Ltac st_simp :=
  unfold bind, ret, raise, get, put, lift_res, this, the_settings, liftW,
    set_trusted, set_result, run_cmd, save_cache, call, clock in *;
  simpl in *.

(** *** The locator *)






(** *** The format of a file name *)

Lemma string_app_assoc (a b c : string) : (a +:+ b) +:+ c = a +:+ (b +:+ c).
Proof.
  induction a as [|x a IH]; [reflexivity|].
  change (String x ((a +:+ b) +:+ c) = String x (a +:+ (b +:+ c))). rewrite IH. reflexivity.
Qed.

(** The last dot of [s.t], for [t] without a dot, is the one before [t]. *)
Lemma split_last_dot_app (s t : string) :
  split_last_dot t = None →
  split_last_dot (s +:+ String "." t) = Some (s, String "." t).
Proof.
  intros Ht. induction s as [|c s IH].
  - change ("" +:+ String "." t) with (String "." t). cbn [split_last_dot].
    rewrite Ht. reflexivity.
  - change (String c s +:+ String "." t) with (String c (s +:+ String "." t)).
    cbn [split_last_dot]. rewrite IH. reflexivity.
Qed.

Lemma name_suffix_app (s t : string) :
  split_last_dot t = None → s ≠ "" → t ≠ "" →
  name_suffix (s +:+ String "." t) = String "." t
  ∧ name_stem (s +:+ String "." t) = s.
Proof.
  intros Ht Hs Hne. unfold name_suffix, name_stem. rewrite (split_last_dot_app s t Ht).
  apply String.eqb_neq in Hs. rewrite Hs.
  destruct t; [contradiction|]. split; reflexivity.
Qed.

Lemma path_name_join (dir : Path) (filename : string) :
  path_name (path_join dir filename) = filename.
Proof. apply last_last. Qed.

(** X7. The format of the three candidate file names. [stem.recipe.yaml]
    is YAML and [stem.recipe.plist] is PLIST for every stem;
    [stem.recipe] is PLIST unless the stem is empty: a file named
    [.recipe] has no suffix for [pathlib], and [format] raises
    [RecipeFormatException] with the empty suffix. *)
Theorem format_of_candidates (dir : Path) (stem : string) :
  format (path_join dir (stem +:+ ".recipe.yaml")) = Ok YAML
  ∧ format (path_join dir (stem +:+ ".recipe.plist")) = Ok PLIST
  ∧ format (path_join dir (stem +:+ ".recipe"))
    = (if decide (stem = "") then Raise (RecipeFormatException "") else Ok PLIST).
Proof.
  assert (Hne : stem +:+ ".recipe" ≠ "").
  { intros H. apply (f_equal String.length) in H. rewrite string_length_app in H.
    simpl in H. lia. }
  unfold format, path_suffix. rewrite !path_name_join.
  split; [|split].
  - change ".recipe.yaml" with (".recipe" +:+ ".yaml"). rewrite <- string_app_assoc.
    destruct (name_suffix_app (stem +:+ ".recipe") "yaml") as [-> _]; try done.
  - change ".recipe.plist" with (".recipe" +:+ ".plist"). rewrite <- string_app_assoc.
    destruct (name_suffix_app (stem +:+ ".recipe") "plist") as [-> _]; try done.
  - destruct (decide (stem = "")) as [->|Hstem]; [reflexivity|].
    destruct (name_suffix_app stem "recipe") as [-> _]; try done.
Qed.

(** *** The accessors *)

(** X8. [description], [minimum_version] and [parent_recipe] on a parsed
    mapping: the value under the key, the empty string when the document
    gives the key the value null, and [KeyError] when the document has no
    such key. *)
Theorem optional_accessors (r : Recipe) (doc : gmap string PyVal) :
  _contents r = PDict doc →
  let read (key : string) : Res PyVal :=
    match doc !! key with
    | None => Raise (KeyError key)
    | Some PNone => Ok (PStr "")
    | Some v => Ok v
    end in
  description r = read "Description"
  ∧ minimum_version r = read "MinimumVersion"
  ∧ parent_recipe r = read "ParentRecipe".
Proof.
  intros Hdoc. cbn zeta.
  unfold description, minimum_version, parent_recipe, text_or_empty. rewrite Hdoc. simpl.
  repeat split; match goal with |- context [doc !! ?k] => destruct (doc !! k) as [[]|] end;
    reflexivity.
Qed.

(** X19. A decoded document need not be a mapping: YAML text that is a
    plain scalar decodes to a string. On such contents every accessor
    raises [TypeError], [input_name] included: it turns [KeyError] into
    [RecipeInputException] and lets any other error through. *)
Theorem accessors_on_scalar (r : Recipe) (s : string) :
  _contents r = PStr s →
  let error := Raise (TypeError "string indices must be integers, not 'str'") in
  identifier r = error ∧ input r = error ∧ input_name r = error
  ∧ description r = error ∧ minimum_version r = error ∧ parent_recipe r = error
  ∧ process r = error.
Proof.
  intros Hdoc. cbn zeta.
  unfold identifier, input, input_name, description, minimum_version, parent_recipe,
    process, text_or_empty.
  rewrite Hdoc. repeat split; reflexivity.
Qed.

(** *** Download paths *)

(** X9. [_extract_download_paths] either returns one path per item, the
    item's [download_path], in order, or raises [KeyError] for that key
    because some item lacks it; it raises nothing else and never returns
    a shorter list. *)
Theorem extract_download_paths_outcomes (items : list (gmap string string)) :
  match _extract_download_paths items with
  | Ok paths =>
      Forall2 (λ item p, item !! "download_path" = Some p) items paths
  | Raise e =>
      e = KeyError "download_path"
      ∧ Exists (λ item, item !! "download_path" = None) items
  end.
Proof.
  destruct (_extract_download_paths items) as [paths|e] eqn:H.
  - apply extract_download_paths_ok. exact H.
  - unfold _extract_download_paths in H.
    assert (Hm : mapM_res (λ item, getitem item "download_path") items = Raise e).
    { destruct items; [discriminate|exact H]. }
    clear H. induction items as [|x l IH]; simpl in Hm; [discriminate|].
    unfold getitem at 1 in Hm. destruct (x !! "download_path") eqn:Hx.
    + destruct (mapM_res _ l) as [ys|e'] eqn:Hl; [discriminate|].
      injection Hm as ->. destruct (IH eq_refl) as [-> Hex]. split; [reflexivity|].
      right. exact Hex.
    + injection Hm as <-. split; [reflexivity|]. left. exact Hx.
Qed.

(** *** The commands *)

(** X10. The command lines. The check command is the full command with
    [--check] appended. [autopkg run] is passed one [v] fewer than the
    verbosity level (no flag at levels 0 and 1), [verify-trust-info] is
    passed the whole level, and [update-trust-info] no verbosity flag. *)
Theorem command_lines (r : Recipe) (s : Settings.SettingsImpl) :
  let level := Settings._verbosity_level s in
  _autopkg_run_cmd r s true = _autopkg_run_cmd r s false ++ ["--check"]
  ∧ _autopkg_run_cmd r s false
    = ["/usr/local/bin/autopkg"; "run"; path_name (_path r);
       "--report-plist=" +:+ path_str (report_file_path (_result r))]
      ++ (if decide (2 ≤ level)%Z then ["-" +:+ Settings.repeat_v (Z.to_nat (level - 1))] else [])
  ∧ verify_cmd r s
    = ["/usr/local/bin/autopkg"; "verify-trust-info"; path_name (_path r);
       "--override-dir=" +:+ path_str (path_parent (_path r))]
      ++ (if decide (1 ≤ level)%Z then ["-" +:+ Settings.repeat_v (Z.to_nat level)] else [])
  ∧ trust_cmd "update-trust-info" r
    = ["/usr/local/bin/autopkg"; "update-trust-info"; path_name (_path r);
       "--override-dir=" +:+ path_str (path_parent (_path r))].
Proof.
  cbn zeta. split; [|split; [|split]].
  - unfold _autopkg_run_cmd. rewrite app_nil_r, <- app_assoc. reflexivity.
  - unfold _autopkg_run_cmd, name, Settings.verbosity_int, Settings.verbosity_str.
    rewrite app_nil_r. f_equal.
    destruct (Z.leb_spec (Settings._verbosity_level s + -1) 0) as [Hle|Hgt].
    + simpl. destruct (decide _) as [H|H]; [lia|reflexivity].
    + destruct (Z.ltb_spec 0 (Settings._verbosity_level s + -1)); [|lia].
      destruct (decide _) as [H'|H']; [|lia].
      replace (Settings._verbosity_level s + -1)%Z with (Settings._verbosity_level s - 1)%Z by lia.
      reflexivity.
  - unfold verify_cmd, trust_cmd, name, Settings.verbosity_int, Settings.verbosity_str.
    f_equal.
    destruct (Z.leb_spec (Settings._verbosity_level s + 0) 0) as [Hle|Hgt].
    + simpl. destruct (decide _) as [H|H]; [lia|reflexivity].
    + destruct (Z.ltb_spec 0 (Settings._verbosity_level s + 0)); [|lia].
      destruct (decide _) as [H'|H']; [|lia].
      replace (Settings._verbosity_level s + 0)%Z with (Settings._verbosity_level s) by lia.
      reflexivity.
  - reflexivity.
Qed.

(** *** Every outcome of the pipeline *)

Lemma same_recipe_refl (r : Recipe) : same_recipe r r.
Proof. repeat split. Qed.

Lemma compile_report_any (r r1 : Recipe) (w w1 : World) (res : Res ConsolidatedReport) :
  compile_report (r, w) = (res, (r1, w1)) →
  trace w1 = trace w ++ [EvRefresh (report_file_path (_result r))]
  ∧ settings w1 = settings w ∧ same_recipe r r1.
Proof.
  unfold compile_report. st_simp.
  destruct (refresh_contents _ _) as [[raw|e] o]; simpl.
  - destruct (consolidate_report raw); simpl; intros [= <- <- <-]; simpl;
      repeat split; reflexivity.
  - intros [= <- <- <-]. simpl. repeat split; reflexivity.
Qed.

Lemma phase_any (check : bool) (r r1 : Recipe) (w w1 : World) (res : Res ConsolidatedReport) :
  (if check then run_check_phase else run_full) (r, w) = (res, (r1, w1)) →
  settings w1 = settings w ∧ same_recipe r r1
  ∧ (trace w1 = trace w ++ [EvRunCmd (_autopkg_run_cmd r (settings w) check) (Some false)]
     ∨ trace w1 = trace w ++ [EvRunCmd (_autopkg_run_cmd r (settings w) check) (Some false);
                              EvRefresh (report_file_path (_result r))]).
Proof.
  intros H.
  assert (H' : (settings w1 = settings w ∧ r1 = r
                ∧ trace w1 = trace w ++ [EvRunCmd (_autopkg_run_cmd r (settings w) check) (Some false)])
               ∨ ∃ w0, trace w0 = trace w ++ [EvRunCmd (_autopkg_run_cmd r (settings w) check) (Some false)]
                       ∧ settings w0 = settings w
                       ∧ compile_report (r, w0) = (res, (r1, w1))).
  { destruct check; unfold run_check_phase, run_full in H; st_simp;
      destruct (shell_run_cmd _ _ _) as [[x|e] o]; simpl in H.
    - right. eexists. split; [|split; [|exact H]]; reflexivity.
    - left. injection H as <- <- <-. simpl. destruct r. auto.
    - right. eexists. split; [|split; [|exact H]]; reflexivity.
    - left. injection H as <- <- <-. simpl. destruct r. auto. }
  destruct H' as [(Hs & -> & Ht)|(w0 & Ht & Hs & Hc)].
  - split; [exact Hs|]. split; [apply same_recipe_refl|]. left. exact Ht.
  - apply compile_report_any in Hc as (Ht1 & Hs1 & Hr).
    split; [congruence|]. split; [exact Hr|]. right.
    rewrite Ht1, Ht, <- app_assoc. reflexivity.
Qed.

Lemma get_metadata_for_item_any (p : string) (w w' : World) (res : Res DownloadMetadata) :
  _get_metadata_for_item p w = (res, w') →
  settings w' = settings w
  ∧ ∃ fetches, trace w' = trace w ++ fetches ∧ fetches `prefix_of` item_fetches p
               ∧ (∀ md, res = Ok md → fetches = item_fetches p ∧ file_path md = p).
Proof.
  unfold _get_metadata_for_item, item_fetches. st_simp.
  destruct (get_file_metadata _ _ _) as [[x1|e1] o1]; simpl.
  - destruct (get_file_size _ _) as [[x2|e2] o2]; simpl.
    + destruct (get_file_metadata _ _ o2) as [[x3|e3] o3]; simpl;
        intros [= <- <-]; simpl; (split; [reflexivity|]); eexists;
        (split; [rewrite <- !app_assoc; reflexivity|]); (split; [reflexivity|]).
      * intros md [= <-]. split; reflexivity.
      * discriminate.
    + intros [= <- <-]. simpl. split; [reflexivity|]. eexists.
      split; [rewrite <- !app_assoc; reflexivity|]. split; [|discriminate].
      eexists [_]. reflexivity.
  - intros [= <- <-]. simpl. split; [reflexivity|]. eexists.
    split; [reflexivity|]. split; [|discriminate]. eexists [_; _]. reflexivity.
Qed.

Lemma item_fetches_are_fetches (paths : list string) :
  Forall (λ e, is_fetch e = true) (paths ≫= item_fetches).
Proof.
  induction paths as [|p paths IH]; [constructor|].
  rewrite bind_cons. apply Forall_app. split; [repeat constructor|exact IH].
Qed.

Lemma gather_metadata_any (paths : list string) (w w' : World) (res : Res (list DownloadMetadata)) :
  gather _get_metadata_for_item paths w = (res, w') →
  settings w' = settings w
  ∧ ∃ fetches, trace w' = trace w ++ fetches ∧ fetches `prefix_of` (paths ≫= item_fetches)
               ∧ (∀ mds, res = Ok mds →
                    fetches = paths ≫= item_fetches ∧ file_path <$> mds = paths).
Proof.
  revert w w' res. induction paths as [|p paths IH]; intros w w' res; cbn [gather].
  - unfold ret. intros [= <- <-]. split; [reflexivity|]. exists [].
    rewrite app_nil_r. split; [reflexivity|]. split; [reflexivity|].
    intros mds [= <-]. split; reflexivity.
  - unfold bind at 1.
    destruct (_get_metadata_for_item p w) as [[md|e] w0] eqn:Hitem.
    + apply get_metadata_for_item_any in Hitem as (Hs1 & f1 & Ht1 & _ & Hok1).
      destruct (Hok1 md eq_refl) as [-> Hp].
      unfold bind at 1.
      destruct (gather _get_metadata_for_item paths w0) as [[ys|e] w1] eqn:Hrest;
        unfold ret; intros [= <- <-];
        apply IH in Hrest as (Hs2 & f2 & Ht2 & Hpre2 & Hok2);
        (split; [congruence|]); exists (item_fetches p ++ f2);
        (split; [rewrite Ht2, Ht1, <- app_assoc; reflexivity|]);
        (split; [rewrite bind_cons; apply prefix_app; exact Hpre2|]).
      * intros mds [= <-]. destruct (Hok2 ys eq_refl) as [-> Hps].
        rewrite bind_cons, fmap_cons, Hp, Hps. split; reflexivity.
      * discriminate.
    + intros [= <- <-].
      apply get_metadata_for_item_any in Hitem as (Hs1 & f1 & Ht1 & Hpre1 & _).
      split; [exact Hs1|]. exists f1. split; [exact Ht1|]. split; [|discriminate].
      rewrite bind_cons. apply prefix_app_r. exact Hpre1.
Qed.

Lemma get_metadata_any (items : list (gmap string string)) (w w' : World) (res : Res RecipeCache) :
  _get_metadata items w = (res, w') →
  settings w' = settings w
  ∧ ∃ fetches, trace w' = trace w ++ fetches ∧ Forall (λ e, is_fetch e = true) fetches
               ∧ (∀ cache, res = Ok cache →
                    ∃ paths, _extract_download_paths items = Ok paths
                             ∧ fetches = paths ≫= item_fetches
                             ∧ file_path <$> metadata cache = paths).
Proof.
  unfold _get_metadata. unfold bind at 1. unfold lift_res.
  destruct (_extract_download_paths items) as [paths|e] eqn:Hpaths.
  - unfold bind at 1.
    destruct (gather _get_metadata_for_item paths w) as [[mds|e] w0] eqn:Hg;
      apply gather_metadata_any in Hg as (Hs & fetches & Ht & Hpre & Hok).
    + st_simp. destruct (now_str _) as [now h]. intros [= <- <-]. simpl.
      destruct (Hok mds eq_refl) as [-> Hps].
      split; [exact Hs|]. eexists. split; [exact Ht|].
      split; [apply item_fetches_are_fetches|].
      intros cache [= <-]. exists paths. simpl. auto.
    + intros [= <- <-]. split; [exact Hs|]. exists fetches. split; [exact Ht|].
      split; [|discriminate]. destruct Hpre as [k Hk].
      pose proof (item_fetches_are_fetches paths) as Hall. rewrite Hk in Hall.
      apply Forall_app in Hall as [Hall _]. exact Hall.
  - intros [= <- <-]. split; [reflexivity|]. exists []. rewrite app_nil_r.
    split; [reflexivity|]. split; [constructor|discriminate].
Qed.

(** X11. A collection that completes has made exactly three calls per
    downloaded item and no other: for each item in turn, the etag, the
    size and the last-modified attribute of [Path(download_path)]. Its
    entries carry the download paths in the order of the items. *)
Theorem get_metadata_calls (items : list (gmap string string)) (w w' : World)
    (cache : RecipeCache) :
  _get_metadata items w = (Ok cache, w') →
  ∃ paths,
    Forall2 (λ item p, item !! "download_path" = Some p) items paths
    ∧ file_path <$> metadata cache = paths
    ∧ trace w' = trace w ++ (paths ≫= item_fetches)
    ∧ length (paths ≫= item_fetches) = (3 * length items)%nat.
Proof.
  intros H. apply get_metadata_any in H as (_ & fetches & Ht & _ & Hok).
  destruct (Hok cache eq_refl) as (paths & Hpaths & -> & Hfp).
  apply extract_download_paths_ok in Hpaths.
  exists paths. split; [exact Hpaths|]. split; [exact Hfp|]. split; [exact Ht|].
  rewrite (Forall2_length _ _ _ Hpaths). clear.
  induction paths as [|p paths IH]; [reflexivity|].
  rewrite bind_cons, length_app, IH. simpl. lia.
Qed.

Lemma prefix_of_three {A} (tail : list A) (a b c : A) :
  tail `prefix_of` [a; b; c] →
  tail = [] ∨ tail = [a] ∨ tail = [a; b] ∨ tail = [a; b; c].
Proof.
  intros [k Hk]. destruct tail as [|x [|y [|z [|u tail]]]]; simplify_eq/=; auto 6.
Qed.

(** X12. Every run, whether it returns or raises and whatever the
    collaborators do, calls them in one order: the check command, the
    report read, attribute fetches, one save, the full command, the
    report read; it stops somewhere along that line. So a run starts at
    most two subprocesses, saves at most once, and never starts the full
    phase without having saved the cache first. It leaves the settings
    and the identity of the recipe as they were. *)
Theorem run_call_order (r : Recipe) (w : World) :
  let s' := (run (r, w)).2 in
  let check := EvRunCmd (_autopkg_run_cmd r (settings w) true) (Some false) in
  let full := EvRunCmd (_autopkg_run_cmd r (settings w) false) (Some false) in
  let refresh := EvRefresh (report_file_path (_result r)) in
  settings s'.2 = settings w
  ∧ same_recipe r s'.1
  ∧ ∃ delta, trace s'.2 = trace w ++ delta
      ∧ (delta = [check]
         ∨ ∃ fetches cache tail,
             Forall (λ e, is_fetch e = true) fetches
             ∧ tail `prefix_of`
                 [EvSave (Settings._cache_file (settings w)) (path_name (_path r)) cache;
                  full; refresh]
             ∧ delta = [check; refresh] ++ fetches ++ tail)
      ∧ (count is_run_cmd delta ≤ 2)%nat
      ∧ (count is_save delta ≤ 1)%nat
      ∧ (count is_full_phase delta ≤ count is_save delta)%nat.
Proof.
  cbn zeta.
  set (check := EvRunCmd (_autopkg_run_cmd r (settings w) true) (Some false)).
  set (full := EvRunCmd (_autopkg_run_cmd r (settings w) false) (Some false)).
  set (refresh := EvRefresh (report_file_path (_result r))).
  set (nothing := {| timestamp := ""; metadata := [] |}).
  assert (Hshape : settings (run (r, w)).2.2 = settings w
    ∧ same_recipe r (run (r, w)).2.1
    ∧ ∃ delta, trace (run (r, w)).2.2 = trace w ++ delta
        ∧ (delta = [check]
           ∨ ∃ fetches cache tail,
               Forall (λ e, is_fetch e = true) fetches
               ∧ tail `prefix_of`
                   [EvSave (Settings._cache_file (settings w)) (path_name (_path r)) cache;
                    full; refresh]
               ∧ delta = [check; refresh] ++ fetches ++ tail)).
  { destruct (run (r, w)) as [res [r' w']] eqn:Hrun. cbn [fst snd].
    unfold run in Hrun. unfold bind at 1 in Hrun.
    destruct (run_check_phase (r, w)) as [[out|e] [r1 w1]] eqn:Hc.
    2:{ injection Hrun as <- <- <-.
        apply (phase_any true) in Hc as (Hs1 & Hr1 & [Ht1|Ht1]);
        (split; [exact Hs1|]); (split; [exact Hr1|]); eexists; (split; [exact Ht1|]).
        - left. reflexivity.
        - right. exists [], nothing, []. split; [constructor|]. split; [eexists; reflexivity|].
          reflexivity. }
    apply (phase_trace true) in Hc as (Ht1 & Hs1 & Hr1).
    destruct (downloaded_items out) as [|item items] eqn:Hitems.
    { injection Hrun as <- <- <-.
      split; [exact Hs1|]. split; [exact Hr1|]. eexists. split; [exact Ht1|].
      right. exists [], nothing, []. split; [constructor|]. split; [eexists; reflexivity|].
      reflexivity. }
    unfold bind at 1 in Hrun. unfold liftW at 1 in Hrun. cbn [fst snd] in Hrun.
    destruct (_get_metadata (item :: items) w1) as [[cache|e] w2] eqn:Hm;
      apply get_metadata_any in Hm as (Hs2 & fetches & Ht2 & Hf & _).
    2:{ injection Hrun as <- <- <-. split; [congruence|]. split; [exact Hr1|]. eexists.
        split; [rewrite Ht2, Ht1, <- app_assoc; reflexivity|].
        right. exists fetches, nothing, []. split; [exact Hf|]. split; [eexists; reflexivity|].
        rewrite app_nil_r. reflexivity. }
    unfold bind at 1, this at 1 in Hrun. unfold bind at 1, the_settings at 1 in Hrun.
    cbn [fst snd] in Hrun.
    unfold bind at 1, liftW at 1 in Hrun. cbn [fst snd] in Hrun.
    assert (Hsave : EvSave (Settings._cache_file (settings w2)) (name r1) cache
                    = EvSave (Settings._cache_file (settings w)) (path_name (_path r)) cache).
    { destruct Hr1 as (_ & Hp & _). unfold name. rewrite Hp, Hs2, Hs1. reflexivity. }
    destruct (save_cache (Settings._cache_file (settings w2)) (name r1) cache w2)
      as [[[]|e] w3] eqn:Hsv; apply save_cache_trace in Hsv as (Ht3 & Hs3);
      rewrite Hsave in Ht3.
    2:{ injection Hrun as <- <- <-. split; [congruence|]. split; [exact Hr1|]. eexists.
        split; [rewrite Ht3, Ht2, Ht1, <- !app_assoc; reflexivity|].
        right. exists fetches, cache,
          [EvSave (Settings._cache_file (settings w)) (path_name (_path r)) cache].
        split; [exact Hf|]. split; [eexists [_; _]; reflexivity|]. reflexivity. }
    apply (phase_any false) in Hrun as (Hs4 & Hr4 & Ht4).
    assert (Hcmd : _autopkg_run_cmd r1 (settings w3) false = _autopkg_run_cmd r (settings w) false).
    { destruct Hr1 as (_ & Hp & _ & _ & _ & Hrep).
      unfold _autopkg_run_cmd, name. rewrite Hp, Hrep, Hs3, Hs2, Hs1. reflexivity. }
    assert (Hrep : report_file_path (_result r1) = report_file_path (_result r)).
    { apply Hr1. }
    rewrite Hcmd, Hrep in Ht4.
    split; [congruence|]. split.
    { destruct Hr1 as (H1 & H2 & H3 & H4 & H5 & H6).
      destruct Hr4 as (G1 & G2 & G3 & G4 & G5 & G6).
      repeat split; congruence. }
    destruct Ht4 as [Ht4|Ht4]; eexists;
      (split; [rewrite Ht4, Ht3, Ht2, Ht1, <- !app_assoc; reflexivity|]); right.
    - exists fetches, cache,
        [EvSave (Settings._cache_file (settings w)) (path_name (_path r)) cache; full].
      split; [exact Hf|]. split; [eexists [_]; reflexivity|]. reflexivity.
    - exists fetches, cache,
        [EvSave (Settings._cache_file (settings w)) (path_name (_path r)) cache; full; refresh].
      split; [exact Hf|]. split; [reflexivity|]. reflexivity. }
  destruct Hshape as (Hs & Hr & delta & Ht & Hd).
  split; [exact Hs|]. split; [exact Hr|]. exists delta. split; [exact Ht|].
  split; [exact Hd|].
  assert (Hfull : is_full_phase full = true) by apply full_cmd_is_full_phase.
  assert (Hcheck : is_full_phase check = false) by apply check_cmd_is_not_full_phase.
  destruct Hd as [->|(fetches & cache & tail & Hf & Htail & ->)].
  - unfold count. cbn [List.filter]. rewrite Hcheck. simpl. lia.
  - rewrite !count_app.
    rewrite (count_fetches is_run_cmd fetches), (count_fetches is_save fetches),
      (count_fetches is_full_phase fetches);
      try exact Hf; try (intros [] ?; (reflexivity || discriminate)).
    apply prefix_of_three in Htail as [-> | [-> | [-> | ->]]];
      unfold count; cbn [List.filter]; rewrite ?Hcheck, ?Hfull; simpl; lia.
Qed.

(** The exit code and the output of the subprocess have no part in
    what a phase returns: once [run_cmd] has handed back any exit code,
    the check phase and the full phase are the compilation of the report
    and nothing else; a non-zero code raises nothing. *)
Theorem phase_ignores_exit_code (check : bool) (r : Recipe) (w : World)
    (rc : Z) (out err : string) (o : Outside Hidden) :
  shell_run_cmd (_autopkg_run_cmd r (settings w) check) (Some false) (outside w)
    = (Ok (rc, out, err), o) →
  (if check then run_check_phase else run_full) (r, w)
  = compile_report
      (r, {| outside := o; settings := settings w;
             trace := trace w ++ [EvRunCmd (_autopkg_run_cmd r (settings w) check) (Some false)] |}).
Proof.
  intros Hrun. destruct check; unfold run_check_phase, run_full; st_simp;
    rewrite Hrun; reflexivity.
Qed.

(** X18. A collection or a save that raises ends the run with that
    exception. When the collection raises, nothing has been saved and no
    full phase started; when the save raises, the save was attempted once
    and no full phase started. *)
Theorem run_failure_propagates (r r1 : Recipe) (w w1 : World)
    (out : ConsolidatedReport) (e : exn) :
  run_check_phase (r, w) = (Ok out, (r1, w1)) →
  downloaded_items out ≠ [] →
  (∀ w2, _get_metadata (downloaded_items out) w1 = (Raise e, w2) →
     run (r, w) = (Raise e, (r1, w2))
     ∧ ∃ delta, trace w2 = trace w ++ delta
                ∧ count is_save delta = 0%nat ∧ count is_full_phase delta = 0%nat)
  ∧ (∀ cache w2 w3,
       _get_metadata (downloaded_items out) w1 = (Ok cache, w2) →
       save_cache (Settings._cache_file (settings w2)) (name r1) cache w2 = (Raise e, w3) →
       run (r, w) = (Raise e, (r1, w3))
       ∧ ∃ delta, trace w3 = trace w ++ delta
                  ∧ count is_save delta = 1%nat ∧ count is_full_phase delta = 0%nat).
Proof.
  intros Hcheck Hsome.
  pose proof (phase_trace true _ _ _ _ _ Hcheck) as (Ht1 & _ & _).
  assert (Hc : count is_save
                 [EvRunCmd (_autopkg_run_cmd r (settings w) true) (Some false);
                  EvRefresh (report_file_path (_result r))] = 0%nat
               ∧ count is_full_phase
                   [EvRunCmd (_autopkg_run_cmd r (settings w) true) (Some false);
                    EvRefresh (report_file_path (_result r))] = 0%nat).
  { unfold count. cbn [List.filter]. rewrite check_cmd_is_not_full_phase. split; reflexivity. }
  destruct Hc as [Hc1 Hc2].
  assert (Hnofetch : ∀ f fetches, (∀ ev, is_fetch ev = true → f ev = false) →
            Forall (λ ev, is_fetch ev = true) fetches → count f fetches = 0%nat).
  { intros f fetches. apply count_fetches. }
  split.
  - intros w2 Hmeta. split.
    + unfold run. unfold bind at 1. rewrite Hcheck.
      destruct (downloaded_items out) as [|item items]; [contradiction|].
      unfold bind at 1. unfold liftW at 1. cbn [fst snd]. rewrite Hmeta. reflexivity.
    + apply get_metadata_any in Hmeta as (_ & fetches & Ht2 & Hf & _).
      eexists. split; [rewrite Ht2, Ht1, <- app_assoc; reflexivity|].
      rewrite !count_app, Hc1, Hc2.
      rewrite !(Hnofetch _ fetches); try exact Hf; try (intros [] ?; (reflexivity || discriminate)).
      split; reflexivity.
  - intros cache w2 w3 Hmeta Hsave. split.
    + exact (run_save_failure r r1 w w1 w2 w3 out cache e Hcheck Hsome Hmeta Hsave).
    + apply get_metadata_any in Hmeta as (_ & fetches & Ht2 & Hf & _).
      apply save_cache_trace in Hsave as (Ht3 & _).
      eexists. split; [rewrite Ht3, Ht2, Ht1, <- !app_assoc; reflexivity|].
      rewrite !count_app, Hc1, Hc2.
      rewrite !(Hnofetch _ fetches); try exact Hf; try (intros [] ?; (reflexivity || discriminate)).
      split; reflexivity.
Qed.

(** *** Trust information, continued *)

(** X13. [verify_trust_info] runs the verification subprocess exactly
    when the stored state is the member [UNTESTED], and then once; in
    any other state it runs nothing, changes nothing and returns the
    value of the stored state, which is [False] for [FAILED]. *)
Theorem verify_runs_when_untested (r : Recipe) (w : World) :
  trace (verify_trust_info (r, w)).2.2
  = trace w ++ (if member_eqb (_trusted r) TrustInfoVerificationState.UNTESTED
                then [EvRunCmd (verify_cmd r (settings w)) (Some false)] else [])
  ∧ (member_eqb (_trusted r) TrustInfoVerificationState.UNTESTED = false →
     verify_trust_info (r, w) = (Ok (value (_trusted r)), (r, w)))
  ∧ (_trusted r = TrustInfoVerificationState.FAILED →
     verify_trust_info (r, w) = (Ok (PBool false), (r, w))).
Proof.
  assert (Hother : member_eqb (_trusted r) TrustInfoVerificationState.UNTESTED = false →
                   verify_trust_info (r, w) = (Ok (value (_trusted r)), (r, w))).
  { intros Hne. unfold verify_trust_info. st_simp. rewrite Hne. reflexivity. }
  split; [|split].
  - destruct (member_eqb (_trusted r) TrustInfoVerificationState.UNTESTED) eqn:Heq.
    + unfold verify_trust_info. st_simp. rewrite Heq. simpl.
      destruct (shell_run_cmd _ _ _) as [[[[rc so] se]|e] o]; simpl; [|reflexivity].
      destruct (rc =? 0)%Z; reflexivity.
    + rewrite (Hother eq_refl). simpl. rewrite app_nil_r. reflexivity.
  - exact Hother.
  - intros Hfailed. rewrite Hother; rewrite Hfailed; reflexivity.
Qed.

(** X14. After [update_trust_info] has returned, whatever the state was
    before it and whatever the update's exit code, the next
    [verify_trust_info] runs the verification subprocess, and its
    result follows that run alone: the value 1 on exit code zero,
    [False] otherwise. *)
Theorem update_then_verify (r : Recipe) (w : World)
    (rc rc' : Z) (out err out' err' : string) (o1 o2 : Outside Hidden) :
  shell_run_cmd (trust_cmd "update-trust-info" r) None (outside w) = (Ok (rc, out, err), o1) →
  shell_run_cmd (verify_cmd r (settings w)) (Some false) o1 = (Ok (rc', out', err'), o2) →
  let s1 := (update_trust_info (r, w)).2 in
  (verify_trust_info s1).1 = Ok (if decide (rc' = 0%Z) then PInt 1 else PBool false)
  ∧ trace (verify_trust_info s1).2.2
    = trace w ++ [EvRunCmd (trust_cmd "update-trust-info" r) None;
                  EvRunCmd (verify_cmd r (settings w)) (Some false)].
Proof.
  intros Hup Hver.
  assert (Hfirst : update_trust_info (r, w) =
    (Ok (bool_decide (rc = 0%Z)),
     ({| _name := _name r; _path := _path r; _format := _format r; _contents := _contents r;
         _trusted := TrustInfoVerificationState.UNTESTED; _result := _result r |},
      {| outside := o1; settings := settings w;
         trace := trace w ++ [EvRunCmd (trust_cmd "update-trust-info" r) None] |}))).
  { unfold update_trust_info. st_simp. rewrite Hup. simpl.
    destruct (Z.eqb_spec rc 0) as [->|Hne]; [reflexivity|].
    rewrite bool_decide_eq_false_2 by exact Hne. reflexivity. }
  cbn zeta. rewrite Hfirst. cbn [snd].
  unfold verify_trust_info, verify_cmd, trust_cmd, name in *. st_simp.
  rewrite Hver. simpl.
  destruct (Z.eqb_spec rc' 0) as [->|Hne]; simpl.
  - split; [reflexivity|]. rewrite <- app_assoc. reflexivity.
  - destruct (decide (rc' = 0%Z)); [contradiction|].
    split; [reflexivity|]. rewrite <- app_assoc. reflexivity.
Qed.

(** *** The constructor, continued *)

Lemma mkdir_each_frame (target : Path) (ps : list Path) (fs fs' : FS) (res : Res unit) :
  mkdir_each target ps fs = (res, fs') →
  (∀ p node, fs !! p = Some node → fs' !! p = Some node)
  ∧ (∀ p node, fs !! p = None → fs' !! p = Some node → node = Dir ∧ p ∈ ps).
Proof.
  revert fs. induction ps as [|q ps IH]; intros fs; simpl.
  - intros [= _ <-]. split; [auto|]. intros p node H1 H2. congruence.
  - destruct (fs !! q) as [[c|]|] eqn:Hq.
    + intros [= _ <-]. split; [auto|]. intros p node H1 H2. congruence.
    + intros H. destruct (IH _ H) as [Hkeep Hnew]. split; [exact Hkeep|].
      intros p node H1 H2. destruct (Hnew p node H1 H2) as [-> Hin].
      split; [reflexivity|right; exact Hin].
    + intros H. destruct (IH _ H) as [Hkeep Hnew]. split.
      * intros p node Hp. apply Hkeep. rewrite <- Hp. apply lookup_insert_ne. congruence.
      * intros p node H1 H2. destruct (decide (p = q)) as [->|Hne].
        -- assert (Hdir : fs' !! q = Some Dir) by (apply Hkeep, lookup_insert_eq).
           split; [congruence|left].
        -- destruct (Hnew p node) as [-> Hin]; [|exact H2|].
           { rewrite <- H1. apply lookup_insert_ne. congruence. }
           split; [reflexivity|right; exact Hin].
Qed.

(** X15. Constructing a recipe, whether it succeeds or raises, calls no
    subprocess, report reader, cache store or attribute helper and
    leaves the settings alone. On disk it keeps every existing entry as
    it is and can only add directories: the report directory and its
    ancestors. *)
Theorem init_frame (recipe_name : string) (report_dir : option Path)
    (w w' : World) (res : Res Recipe) :
  __init__ recipe_name report_dir w = (res, w') →
  let dir := default (Settings._report_dir (settings w)) report_dir in
  trace w' = trace w
  ∧ settings w' = settings w
  ∧ (∀ p node, disk (outside w) !! p = Some node → disk (outside w') !! p = Some node)
  ∧ (∀ p node, disk (outside w) !! p = None → disk (outside w') !! p = Some node →
               node = Dir ∧ p ∈ ancestors_and_self dir).
Proof.
  assert (Hsame : ∀ w0 : World, trace w0 = trace w0 ∧ settings w0 = settings w0
    ∧ (∀ p node, disk (outside w0) !! p = Some node → disk (outside w0) !! p = Some node)
    ∧ (∀ p node, disk (outside w0) !! p = None → disk (outside w0) !! p = Some node →
         node = Dir ∧ p ∈ ancestors_and_self
                            (default (Settings._report_dir (settings w0)) report_dir))).
  { intros w0. repeat split; auto; congruence. }
  unfold __init__, find_recipe, _get_contents, mkdir. st_simp.
  destruct (search_dirs _ _ _) as [[path|]|e]; simpl;
    [|intros [= <- <-]; apply Hsame|intros [= <- <-]; apply Hsame].
  destruct (format path) as [fmt|]; simpl; [|intros [= <- <-]; apply Hsame].
  destruct (read_text _ _) as [text|]; simpl; [|intros [= <- <-]; apply Hsame].
  destruct (match fmt with YAML => _ | PLIST => _ end) as [[contents|e] w0] eqn:Hparse.
  2:{ assert (w0 = w) as -> by (destruct fmt; unfold lift_res in Hparse; congruence).
      intros [= <- <-]. apply Hsame. }
  assert (w0 = w) as -> by (destruct fmt; unfold lift_res in Hparse; congruence).
  destruct (now_strftime _) as [now h]. simpl.
  set (dir := default (Settings._report_dir (settings w)) report_dir).
  set (filename := "report_" +:+ now +:+ "_" +:+ path_name path +:+ ".plist").
  destruct (free_report_path_spec (disk (outside w)) dir filename) as [_ Hparent].
  rewrite Hparent.
  destruct (mkdir_parents_exist_ok dir (disk (outside w))) as [[[]|e] fs'] eqn:Hmk;
    simpl; intros [= <- <-]; simpl;
    apply mkdir_each_frame in Hmk as [Hkeep Hnew]; auto.
Qed.

(** X16. What a successful construction has established: the recipe
    keeps the name it was asked for; its path is the locator's answer
    and is a file on disk; its format is the one of the path's suffix;
    its contents are what the decoder of that format made of the file's
    text; its trust state is [UNTESTED] and its report has not been
    read. *)
Theorem init_postcondition (recipe_name : string) (report_dir : option Path)
    (w w' : World) (r : Recipe) :
  __init__ recipe_name report_dir w = (Ok r, w') →
  _name r = recipe_name
  ∧ find_recipe recipe_name w = (Ok (_path r), w)
  ∧ format (_path r) = Ok (_format r)
  ∧ (∃ text, disk (outside w) !! _path r = Some (File text)
             ∧ match _format r with
               | YAML => yaml_safe_load text
               | PLIST => plistlib_loads text
               end = DecValue (_contents r))
  ∧ _trusted r = TrustInfoVerificationState.UNTESTED
  ∧ report_contents (_result r) = None.
Proof.
  unfold __init__, find_recipe, _get_contents, mkdir. st_simp.
  destruct (search_dirs _ _ _) as [[path|]|e]; simpl; [|discriminate|discriminate].
  destruct (format path) as [fmt|] eqn:Hfmt; simpl; [|discriminate].
  unfold read_text.
  destruct (disk (outside w) !! path) as [[text|]|] eqn:Hfile; simpl; try discriminate.
  destruct (match fmt with YAML => _ | PLIST => _ end) as [[contents|e] w0] eqn:Hparse;
    [|discriminate].
  destruct (now_strftime _) as [now h]. simpl.
  destruct (mkdir_parents_exist_ok _ _) as [[[]|e] fs']; simpl; [|discriminate].
  intros [= <- <-]. simpl. split; [reflexivity|]. split; [reflexivity|].
  split; [exact Hfmt|]. split; [|split; reflexivity].
  exists text. split; [exact Hfile|].
  destruct fmt; unfold lift_res, _get_contents_yaml, _get_contents_plist in Hparse.
  - destruct (yaml_safe_load text); congruence.
  - destruct (plistlib_loads text); congruence.
Qed.

(** The loop stops at the first candidate that does not exist. *)
Lemma scan_report_path_least (fuel : nat) (fs : FS) (original report_path q : Path)
    (counter : nat) :
  scan_report_path fuel fs original report_path counter = Some q →
  (q = report_path ∧ path_exists fs report_path = false)
  ∨ (path_exists fs report_path = true
     ∧ ∃ k, (counter ≤ k)%nat ∧ q = numbered original k ∧ path_exists fs q = false
            ∧ ∀ j, (counter ≤ j < k)%nat → path_exists fs (numbered original j) = true).
Proof.
  revert report_path counter. induction fuel as [|fuel IH]; intros p c; simpl; [discriminate|].
  destruct (path_exists fs p) eqn:Hex.
  - intros H. right. split; [reflexivity|].
    apply IH in H as [[-> Hfree]|(Hfirst & k & Hk & -> & Hfree & Hlow)].
    + exists c. split; [lia|]. split; [reflexivity|]. split; [exact Hfree|]. intros j Hj. lia.
    + exists k. split; [lia|]. split; [reflexivity|]. split; [exact Hfree|].
      intros j Hj. destruct (decide (j = c)) as [->|Hne]; [exact Hfirst|]. apply Hlow. lia.
  - intros [= <-]. left. split; reflexivity.
Qed.

Lemma numbered_plist (dir : Path) (base : string) (k : nat) :
  base ≠ "" → (0 < k)%nat →
  numbered (path_join dir (base +:+ ".plist")) k
  = path_join dir (base +:+ counter_suffix k +:+ ".plist").
Proof.
  intros Hbase Hk. rewrite numbered_eq. unfold path_stem, path_suffix.
  rewrite path_name_join.
  destruct (name_suffix_app base "plist") as [-> ->]; try done.
  unfold path_parent, path_join. rewrite removelast_last.
  destruct k as [|k]; [lia|]. unfold counter_suffix.
  rewrite string_app_assoc. reflexivity.
Qed.

Lemma free_report_path_least (fs : FS) (dir : Path) (base : string) :
  base ≠ "" →
  ∃ k, free_report_path fs (path_join dir (base +:+ ".plist"))
       = path_join dir (base +:+ counter_suffix k +:+ ".plist")
       ∧ path_exists fs (path_join dir (base +:+ counter_suffix k +:+ ".plist")) = false
       ∧ ∀ j, (j < k)%nat →
              path_exists fs (path_join dir (base +:+ counter_suffix j +:+ ".plist")) = true.
Proof.
  intros Hbase. unfold free_report_path.
  destruct (free_report_path_total fs (path_join dir (base +:+ ".plist"))) as [q Hq].
  rewrite Hq. simpl.
  apply scan_report_path_least in Hq as [[-> Hfree]|(Hfirst & k & Hk & -> & Hfree & Hlow)].
  - exists 0%nat. split; [reflexivity|]. split; [exact Hfree|]. intros j Hj. lia.
  - exists k. rewrite numbered_plist in * by (done || lia).
    split; [reflexivity|]. split; [exact Hfree|].
    intros j Hj. destruct j as [|j]; [exact Hfirst|].
    rewrite <- numbered_plist by (done || lia). apply Hlow. lia.
Qed.

(** X17. The report file of a constructed recipe is named
    [report_<stamp>_<recipe file name>.plist] in the report directory,
    or carries [_k] before [.plist] for the least k >= 1 that is free:
    every candidate before the chosen one exists on disk at construction
    time and the chosen one does not. *)
Theorem report_file_name (recipe_name : string) (report_dir : option Path)
    (w w' : World) (r : Recipe) :
  __init__ recipe_name report_dir w = (Ok r, w') →
  let dir := default (Settings._report_dir (settings w)) report_dir in
  let stamp := (now_strftime (hidden (outside w))).1 in
  let candidate k :=
    path_join dir ("report_" +:+ stamp +:+ "_" +:+ path_name (_path r)
                   +:+ counter_suffix k +:+ ".plist") in
  ∃ k, report_file_path (_result r) = candidate k
       ∧ path_exists (disk (outside w)) (candidate k) = false
       ∧ ∀ j, (j < k)%nat → path_exists (disk (outside w)) (candidate j) = true.
Proof.
  unfold __init__, find_recipe, _get_contents, mkdir. st_simp.
  destruct (search_dirs _ _ _) as [[path|]|e]; simpl; [|discriminate|discriminate].
  destruct (format path) as [fmt|]; simpl; [|discriminate].
  destruct (read_text _ _) as [text|]; simpl; [|discriminate].
  destruct (match fmt with YAML => _ | PLIST => _ end) as [[contents|e] w0] eqn:Hparse;
    [|discriminate].
  assert (w0 = w) as -> by (destruct fmt; unfold lift_res in Hparse; congruence).
  destruct (now_strftime _) as [now h]. simpl.
  set (dir := default (Settings._report_dir (settings w)) report_dir).
  destruct (mkdir_parents_exist_ok _ _) as [[[]|e] fs']; simpl; [|discriminate].
  intros [= <- <-]. simpl.
  set (base := "report_" +:+ now +:+ "_" +:+ path_name path).
  assert (Hbase : base ≠ "") by discriminate.
  assert (Hname : ∀ tail, "report_" +:+ now +:+ "_" +:+ path_name path +:+ tail = base +:+ tail).
  { intros tail. unfold base. rewrite !string_app_assoc. reflexivity. }
  destruct (free_report_path_least (disk (outside w)) dir base Hbase) as (k & Heq & Hfree & Hlow).
  exists k. rewrite !Hname. split; [exact Heq|]. split; [exact Hfree|].
  intros j Hj. rewrite Hname. apply Hlow. exact Hj.
Qed.

End RecipeMore.

(** ** The properties at work on the scripted world *)

Module Examples.
Import Demo.
Import TrustInfoVerificationState.

(** The check phase of [Foo.recipe.yaml] reports nothing downloaded. *)
Lemma run_without_downloads_witness :
  run (foo UNTESTED, world [0%Z] [empty_report])
    = (Ok empty_report, (run_check_phase (foo UNTESTED, world [0%Z] [empty_report])).2)
  ∧ count is_run_cmd (trace (run (foo UNTESTED, world [0%Z] [empty_report])).2.2) = 1%nat.
Proof.
  pose (s := (run_check_phase (foo UNTESTED, world [0%Z] [empty_report])).2).
  destruct (run_without_downloads (foo UNTESTED) s.1 (world [0%Z] [empty_report]) s.2
              empty_report) as (Hrun & Htrace & _ & _).
  - vm_compute. reflexivity.
  - reflexivity.
  - split.
    + rewrite Hrun. reflexivity.
    + rewrite Hrun. cbn [snd]. rewrite Htrace. vm_compute. reflexivity.
Defined.

(** C2 as stated fails. The check phase reports one downloaded item in
    both runs. In the first the item has no [download_path]: [run] raises
    [KeyError] and has saved nothing and run no full phase. In the second
    the cache store cannot write: [run] raises its error after the save
    was attempted, and no full phase has run. *)
Lemma run_stops_before_full_phase :
  let s := run (foo UNTESTED, world [0%Z; 0%Z] [pathless_download; after_full]) in
  let s' := run (C := broken_store)
              (broken_foo, broken_world [0%Z; 0%Z] [one_download; after_full]) in
  (run_check_phase (foo UNTESTED, world [0%Z; 0%Z] [pathless_download; after_full])).1
    = Ok pathless_download
  ∧ length (downloaded_items pathless_download) = 1%nat
  ∧ s.1 = Raise (KeyError "download_path")
  ∧ count is_save (trace s.2.2) = 0%nat
  ∧ count is_full_phase (trace s.2.2) = 0%nat
  ∧ (run_check_phase (C := broken_store)
       (broken_foo, broken_world [0%Z; 0%Z] [one_download; after_full])).1 = Ok one_download
  ∧ length (downloaded_items one_download) = 1%nat
  ∧ s'.1 = Raise (Foreign "OSError")
  ∧ count is_full_phase (trace s'.2.2) = 0%nat.
Proof. vm_compute. repeat split; reflexivity. Qed.

(** The scenario of the specification: [Foo.recipe.yaml], one downloaded
    item [/tmp/x.dmg]; the check phase even exits with an error code. The
    cache file is on disk when [run] returns. *)
Lemma run_with_downloads_witness :
  let s := run (foo UNTESTED, world [1%Z; 0%Z] [one_download; after_full]) in
  s.1 = Ok after_full
  ∧ disk (outside s.2.2) !! ["metadata_cache.json"]
    = Some (File "Foo.recipe.yaml cached at 2025-11-03 12:00:00+00:00")
  ∧ List.filter (λ e, is_save e || is_full_phase e) (trace s.2.2)
    = [EvSave ["metadata_cache.json"] "Foo.recipe.yaml"
         {| timestamp := "2025-11-03 12:00:00+00:00";
            metadata := [{| etag := Some "abc123"; file_size := Some 42%Z;
                            last_modified := None; file_path := "/tmp/x.dmg" |}] |};
       EvRunCmd ["/usr/local/bin/autopkg"; "run"; "Foo.recipe.yaml";
                 "--report-plist=recipe_reports/report_251103_1200_Foo.recipe.yaml.plist"]
         (Some false)].
Proof.
  pose (after_check := {| exit_codes := [0%Z]; reports := [one_download; after_full] |}).
  pose (after_report := {| exit_codes := [0%Z]; reports := [after_full] |}).
  pose (cached := <[ ["metadata_cache.json"]
                     := File "Foo.recipe.yaml cached at 2025-11-03 12:00:00+00:00" ]> demo_disk).
  destruct (run_with_downloads (foo UNTESTED) (world [1%Z; 0%Z] [one_download; after_full])
              (1%Z, "", "") (0%Z, "", "")
              {| disk := demo_disk; hidden := after_check |}
              {| disk := demo_disk; hidden := after_report |}
              {| disk := demo_disk; hidden := after_report |}
              {| disk := cached; hidden := after_report |}
              {| disk := cached; hidden := {| exit_codes := []; reports := [after_full] |} |}
              {| disk := cached; hidden := {| exit_codes := []; reports := [] |} |}
              one_download after_full one_download after_full ["/tmp/x.dmg"]
              [{| etag := Some "abc123"; file_size := Some 42%Z;
                  last_modified := None; file_path := "/tmp/x.dmg" |}]
              "2025-11-03 12:00:00+00:00" after_report)
    as (r' & Hrun & _ & _ & _ & _ & _ & _).
  - reflexivity.
  - reflexivity.
  - reflexivity.
  - discriminate.
  - repeat constructor.
  - eapply fetches_cons; [reflexivity|reflexivity|reflexivity|apply fetches_nil].
  - reflexivity.
  - reflexivity.
  - reflexivity.
  - reflexivity.
  - reflexivity.
  - cbn zeta. rewrite Hrun. split; [reflexivity|]. split; vm_compute; reflexivity.
Defined.

(** Two calls of [verify_trust_info], the tool exits with code zero both
    times: two subprocesses. *)
Lemma verify_after_success_runs_again_witness :
  let s1 := (verify_trust_info (foo UNTESTED, world [0%Z; 0%Z] [])).2 in
  count is_run_cmd (trace (verify_trust_info s1).2.2) = 2%nat.
Proof.
  intros s1.
  destruct (verify_after_success_runs_again (foo UNTESTED) (world [0%Z; 0%Z] []) "" ""
              {| disk := demo_disk; hidden := {| exit_codes := [0%Z]; reports := [] |} |}
              (Ok (0%Z, "", ""))
              {| disk := demo_disk; hidden := {| exit_codes := []; reports := [] |} |})
    as (_ & _ & Htrace).
  - reflexivity.
  - reflexivity.
  - reflexivity.
  - subst s1. rewrite Htrace. reflexivity.
Defined.

(** A trust update that exits with code 1, on a recipe whose verification
    had failed, under the runner that honours [check]: the exception of
    the runner comes out, and the state is still [FAILED]. *)
Lemma update_trust_info_nonzero_exit_raises_witness :
  (update_trust_info (C := checking) (checking_foo FAILED, checking_world [1%Z])).1
    = Raise (Foreign "ShellCommandException")
  ∧ _trusted (update_trust_info (C := checking) (checking_foo FAILED, checking_world [1%Z])).2.1
    = FAILED.
Proof.
  destruct (update_trust_info_nonzero_exit_raises (C := checking) demo_execute shell_failure
              (checking_foo FAILED) (checking_world [1%Z]) 1%Z "" ""
              {| disk := demo_disk; hidden := {| exit_codes := []; reports := [] |} |})
    as [_ Hraises].
  - reflexivity.
  - reflexivity.
  - rewrite Hraises by discriminate. split; reflexivity.
Defined.

(** C5 as stated fails: two recipes constructed for the same name in the
    same minute, with the report directory unset and nothing run in
    between, keep the same report path. *)
Lemma report_paths_collide :
  ∃ r1 w1 r2 w2,
    __init__ "Foo" None (world [] []) = (Ok r1, w1)
    ∧ __init__ "Foo" None w1 = (Ok r2, w2)
    ∧ report_file_path (_result r1) = report_file_path (_result r2).
Proof.
  pose (r := {| _name := "Foo"; _path := ["overrides"; "Foo.recipe.yaml"]; _format := YAML;
                _contents := PDict {[ "Input" := PDict ∅ ]}; _trusted := UNTESTED;
                _result := {| report_file_path :=
                                ["recipe_reports"; "report_251103_1200_Foo.recipe.yaml.plist"];
                              report_contents := None |} |}).
  pose (w1 := (__init__ "Foo" None (world [] [])).2).
  exists r, w1, r, (__init__ "Foo" None w1).2.
  split; [vm_compute; reflexivity|].
  split; [vm_compute; reflexivity|]. reflexivity.
Qed.

(** The second recipe is constructed after the report of the first has
    been written: the scan moves on to the suffix [_1]. *)
Lemma report_path_is_free_witness :
  let w1 := world [] [] in
  let s1 := __init__ "Foo" None w1 in
  let rp1 := ["recipe_reports"; "report_251103_1200_Foo.recipe.yaml.plist"] in
  let w2 := {| outside := {| disk := <[rp1 := File "report"]> (disk (outside s1.2));
                             hidden := hidden (outside s1.2) |};
               settings := settings s1.2; trace := trace s1.2 |} in
  ∃ r2 w2',
    __init__ "Foo" None w2 = (Ok r2, w2')
    ∧ report_file_path (_result r2)
      = ["recipe_reports"; "report_251103_1200_Foo.recipe.yaml_1.plist"]
    ∧ rp1 ≠ report_file_path (_result r2).
Proof.
  intros w1 s1 rp1 w2.
  pose (r1 := {| _name := "Foo"; _path := ["overrides"; "Foo.recipe.yaml"]; _format := YAML;
                 _contents := PDict {[ "Input" := PDict ∅ ]}; _trusted := UNTESTED;
                 _result := {| report_file_path := rp1; report_contents := None |} |}).
  pose (s2 := __init__ "Foo" None w2).
  pose (r2 := {| _name := "Foo"; _path := ["overrides"; "Foo.recipe.yaml"]; _format := YAML;
                 _contents := PDict {[ "Input" := PDict ∅ ]}; _trusted := UNTESTED;
                 _result := {| report_file_path :=
                                 ["recipe_reports"; "report_251103_1200_Foo.recipe.yaml_1.plist"];
                               report_contents := None |} |}).
  destruct (report_path_is_free "Foo" "Foo" None None w1 s1.2 w2 s2.2 r1 r2)
    as (_ & _ & _ & _ & _ & Hdistinct).
  - vm_compute. reflexivity.
  - vm_compute. reflexivity.
  - exists r2, s2.2. split; [vm_compute; reflexivity|]. split; [reflexivity|].
    apply Hdistinct. vm_compute. reflexivity.
Defined.



(** A property list that breaks off in the middle. *)
Lemma plist_error_of_another_class_escapes_witness :
  _get_contents_plist ["recipes"; "Foo.recipe"] "<?xml version='1.0'?><plist><dict>"
  = Raise (Foreign "xml.parsers.expat.ExpatError").
Proof.
  destruct (plist_error_of_another_class_escapes ["recipes"; "Foo.recipe"]
              "<?xml version='1.0'?><plist><dict>" "xml.parsers.expat.ExpatError") as [H _].
  - reflexivity.
  - exact H.
Defined.

(** [Input: {NAME: Foo}] and [Input: {}]. *)
Lemma input_name_spec_witness :
  input_name (foo UNTESTED) = Ok (PStr "Foo")
  ∧ ∃ r, __init__ "Foo" None (world [] []) = (Ok r, (__init__ "Foo" None (world [] [])).2)
         ∧ input_name r = Raise (RecipeInputException ["overrides"; "Foo.recipe.yaml"]).
Proof.
  split.
  - destruct (input_name_spec (foo UNTESTED) {[ "Input" := PDict {[ "NAME" := PStr "Foo" ]} ]}
                {[ "NAME" := PStr "Foo" ]}) as (_ & Hsome & _).
    + reflexivity.
    + reflexivity.
    + apply Hsome. reflexivity.
  - pose (r := {| _name := "Foo"; _path := ["overrides"; "Foo.recipe.yaml"]; _format := YAML;
                  _contents := PDict {[ "Input" := PDict ∅ ]}; _trusted := UNTESTED;
                  _result := {| report_file_path :=
                                  ["recipe_reports"; "report_251103_1200_Foo.recipe.yaml.plist"];
                                report_contents := None |} |}).
    exists r. split; [vm_compute; reflexivity|].
    destruct (input_name_spec r {[ "Input" := PDict ∅ ]} ∅) as (Hnone & _).
    + reflexivity.
    + vm_compute. reflexivity.
    + apply Hnone. vm_compute. reflexivity.
Defined.

End Examples.

(** ** More examples on the scripted world *)

Module MoreExamples.
Import Demo.
Import TrustInfoVerificationState.

(** After a verbosity assignment and a constructor call with every
    keyword: 0 is refused as max concurrency and accepted as verbosity. *)
Lemma validated_setters_witness :
  let cs := Settings.after [Settings.SetVerbosityLevel 2; Settings.Construct Settings.every_keyword]
              Settings.module_state in
  Settings.perform (Settings.SetMaxConcurrency 0) cs
  = (Raise (SettingsValidationError "max_concurrency" "Must be a positive integer"), cs)
  ∧ ∃ cs', Settings.perform (Settings.SetVerbosityLevel 0) cs = (Ok tt, cs')
           ∧ (Settings._verbosity_level <$> Settings.fields_of Settings.settings_object cs') = Some 0%Z
           ∧ (Settings._max_concurrency <$> Settings.fields_of Settings.settings_object cs') = Some 10%Z.
Proof.
  intros cs.
  destruct (SettingsMore.validated_setters
              [Settings.SetVerbosityLevel 2; Settings.Construct Settings.every_keyword] 0%Z)
    as (Hlow & _ & _ & Hok).
  split.
  - apply Hlow. lia.
  - destruct Hok as (cs' & Hrun & Hget & _ & _ & _ & Hmax); [lia|].
    exists cs'. split; [exact Hrun|]. split; [exact Hget|]. rewrite Hmax. reflexivity.
Defined.

(** Level 3 with delta -1 is [-vv]; level 1 with delta -1 is no flag. *)
Lemma verbosity_str_matches_int_witness :
  let level (n : Z) :=
    {| Settings._cache_file := []; Settings._log_file := None; Settings._max_concurrency := 10;
       Settings._report_dir := []; Settings._verbosity_level := n |} in
  Settings.verbosity_str (level 3%Z) (-1) = "-vv"
  ∧ Settings.verbosity_str (level 1%Z) (-1) = "".
Proof.
  intros level. split.
  - destruct (SettingsMore.verbosity_str_matches_int (level 3%Z) (-1)) as (_ & _ & Hpos).
    destruct Hpos as [Hstr _]; [reflexivity|]. rewrite Hstr. reflexivity.
  - destruct (SettingsMore.verbosity_str_matches_int (level 1%Z) (-1)) as (_ & Hzero & _).
    apply Hzero. reflexivity.
Defined.



(** A document with a null description and no minimum version. *)
Lemma optional_accessors_witness :
  let r := {| _name := "Foo"; _path := ["recipes"; "Foo.recipe"]; _format := PLIST;
              _contents := PDict {[ "Description" := PNone ]}; _trusted := UNTESTED;
              _result := {| report_file_path := ["r.plist"]; report_contents := None |} |} in
  description r = Ok (PStr "") ∧ minimum_version r = Raise (KeyError "MinimumVersion").
Proof.
  intros r.
  destruct (optional_accessors r {[ "Description" := PNone ]}) as (Hd & Hm & _).
  - reflexivity.
  - split; [rewrite Hd|rewrite Hm]; reflexivity.
Defined.

(** [yaml.safe_load] of the text [invalid content] is that string. *)
Lemma accessors_on_scalar_witness :
  let r := {| _name := "Foo"; _path := ["recipes"; "Foo.recipe.yaml"]; _format := YAML;
              _contents := PStr "invalid content"; _trusted := UNTESTED;
              _result := {| report_file_path := ["r.plist"]; report_contents := None |} |} in
  input_name r = Raise (TypeError "string indices must be integers, not 'str'").
Proof.
  intros r.
  destruct (accessors_on_scalar r "invalid content") as (_ & _ & Hname & _).
  - reflexivity.
  - exact Hname.
Defined.

(** Two downloaded items: six calls. *)
Lemma get_metadata_calls_witness :
  let items : list (gmap string string) :=
    [ {[ "download_path" := "/tmp/x.dmg" ]}; {[ "download_path" := "/tmp/y.pkg" ]} ] in
  trace (_get_metadata items (world [] [])).2
  = item_fetches "/tmp/x.dmg" ++ item_fetches "/tmp/y.pkg".
Proof.
  intros items.
  pose (res := _get_metadata items (world [] [])).
  destruct (get_metadata_calls items (world [] []) res.2
              {| timestamp := "2025-11-03 12:00:00+00:00";
                 metadata := [{| etag := Some "abc123"; file_size := Some 42%Z;
                                 last_modified := None; file_path := "/tmp/x.dmg" |};
                              {| etag := Some "abc123"; file_size := Some 42%Z;
                                 last_modified := None; file_path := "/tmp/y.pkg" |}] |})
    as (paths & _ & Hpaths & Htrace & _).
  - vm_compute. reflexivity.
  - fold res. rewrite Htrace. rewrite <- Hpaths. reflexivity.
Defined.

(** The check phase exits with code 1 and the report still counts. *)
Lemma phase_ignores_exit_code_witness :
  (run_check_phase (foo UNTESTED, world [1%Z] [one_download])).1 = Ok one_download.
Proof.
  rewrite (phase_ignores_exit_code true (foo UNTESTED) (world [1%Z] [one_download]) 1%Z "" ""
             {| disk := demo_disk; hidden := {| exit_codes := []; reports := [one_download] |} |}).
  - reflexivity.
  - reflexivity.
Defined.

(** A downloaded item without a path stops the run at the collection; a
    cache store that cannot write stops it at the save. *)
Lemma run_failure_propagates_witness :
  (run (foo UNTESTED, world [0%Z] [pathless_download])).1 = Raise (KeyError "download_path")
  ∧ (run (C := broken_store) (broken_foo, broken_world [0%Z] [one_download])).1
    = Raise (Foreign "OSError").
Proof.
  split.
  - pose (w := world [0%Z] [pathless_download]).
    pose (s1 := (run_check_phase (foo UNTESTED, w)).2).
    destruct (run_failure_propagates (foo UNTESTED) s1.1 w s1.2 pathless_download
                (KeyError "download_path")) as [Hmeta _].
    + vm_compute. reflexivity.
    + discriminate.
    + destruct (Hmeta s1.2) as [Hrun _]; [vm_compute; reflexivity|].
      fold w. rewrite Hrun. reflexivity.
  - pose (w := broken_world [0%Z] [one_download]).
    pose (s1 := (run_check_phase (C := broken_store) (broken_foo, w)).2).
    pose (m := _get_metadata (C := broken_store) (downloaded_items one_download) s1.2).
    pose (cache := {| timestamp := "2025-11-03 12:00:00+00:00";
                      metadata := [{| etag := Some "abc123"; file_size := Some 42%Z;
                                      last_modified := None; file_path := "/tmp/x.dmg" |}] |}).
    pose (w3 := (save_cache (C := broken_store)
                   (Settings._cache_file (settings m.2)) (name s1.1) cache m.2).2).
    destruct (run_failure_propagates (C := broken_store) broken_foo s1.1 w s1.2 one_download
                (Foreign "OSError")) as [_ Hsave].
    + vm_compute. reflexivity.
    + discriminate.
    + destruct (Hsave cache m.2 w3) as [Hrun _]; [vm_compute; reflexivity..|].
      fold w. rewrite Hrun. reflexivity.
Defined.

(** A recipe whose verification had failed. *)
Lemma verify_runs_when_untested_witness :
  verify_trust_info (foo FAILED, world [0%Z] []) = (Ok (PBool false), (foo FAILED, world [0%Z] [])).
Proof.
  destruct (verify_runs_when_untested (foo FAILED) (world [0%Z] [])) as (_ & _ & Hfailed).
  apply Hfailed. reflexivity.
Defined.

(** A failed update on a recipe whose verification had failed, then a
    verification that exits with code zero. *)
Lemma update_then_verify_witness :
  let s1 := (update_trust_info (foo FAILED, world [1%Z; 0%Z] [])).2 in
  (verify_trust_info s1).1 = Ok (PInt 1)
  ∧ count is_run_cmd (trace (verify_trust_info s1).2.2) = 2%nat.
Proof.
  intros s1.
  destruct (update_then_verify (foo FAILED) (world [1%Z; 0%Z] []) 1%Z 0%Z "" "" "" ""
              {| disk := demo_disk; hidden := {| exit_codes := [0%Z]; reports := [] |} |}
              {| disk := demo_disk; hidden := {| exit_codes := []; reports := [] |} |})
    as (Hres & Htrace).
  - reflexivity.
  - reflexivity.
  - subst s1. split; [exact Hres|]. rewrite Htrace. reflexivity.
Defined.

(** Constructing [Foo] creates the report directory and nothing else. *)
Lemma init_frame_witness :
  let w' := (__init__ "Foo" None (world [] [])).2 in
  trace w' = []
  ∧ disk (outside w') !! ["recipes"; "Foo.recipe"] = Some (File good_plist)
  ∧ disk (outside w') !! ["recipe_reports"] = Some Dir.
Proof.
  intros w'.
  destruct (init_frame "Foo" None (world [] []) w' (__init__ "Foo" None (world [] [])).1)
    as (Htrace & _ & Hkeep & Hnew).
  - subst w'. destruct (__init__ "Foo" None (world [] [])). reflexivity.
  - split; [exact Htrace|]. split.
    + apply Hkeep. vm_compute. reflexivity.
    + destruct (disk (outside w') !! ["recipe_reports"]) as [node|] eqn:Hnode.
      * destruct (Hnew ["recipe_reports"] node) as [-> _]; [vm_compute; reflexivity|exact Hnode|].
        reflexivity.
      * vm_compute in Hnode. discriminate.
Defined.

Lemma init_postcondition_witness :
  ∃ r, (__init__ "Foo" None (world [] [])).1 = Ok r
       ∧ _path r = ["overrides"; "Foo.recipe.yaml"] ∧ _format r = YAML
       ∧ _trusted r = UNTESTED.
Proof.
  pose (res := __init__ "Foo" None (world [] [])).
  pose (r := {| _name := "Foo"; _path := ["overrides"; "Foo.recipe.yaml"]; _format := YAML;
                _contents := PDict {[ "Input" := PDict ∅ ]}; _trusted := UNTESTED;
                _result := {| report_file_path :=
                                ["recipe_reports"; "report_251103_1200_Foo.recipe.yaml.plist"];
                              report_contents := None |} |}).
  destruct (init_postcondition "Foo" None (world [] []) res.2 r) as (_ & _ & Hfmt & _ & Htrust & _).
  - vm_compute. reflexivity.
  - exists r. split; [vm_compute; reflexivity|]. split; [reflexivity|].
    split; [reflexivity|exact Htrust].
Defined.

(** With the first two report names taken, the third candidate is [_2]. *)
Lemma report_file_name_witness :
  let taken : FS :=
    <[ ["recipe_reports"; "report_251103_1200_Foo.recipe.yaml.plist"] := File "a" ]>
      (<[ ["recipe_reports"; "report_251103_1200_Foo.recipe.yaml_1.plist"] := File "b" ]>
         demo_disk) in
  let w := {| outside := {| disk := taken; hidden := {| exit_codes := []; reports := [] |} |};
              settings := default_settings; trace := [] |} in
  ∃ r k, (__init__ "Foo" None w).1 = Ok r
         ∧ report_file_path (_result r)
           = ["recipe_reports"; "report_251103_1200_Foo.recipe.yaml_2.plist"]
         ∧ report_file_path (_result r)
           = path_join ["recipe_reports"]
               ("report_" +:+ "251103_1200" +:+ "_" +:+ "Foo.recipe.yaml"
                +:+ counter_suffix k +:+ ".plist").
Proof.
  intros taken w.
  pose (res := __init__ "Foo" None w).
  pose (r := {| _name := "Foo"; _path := ["overrides"; "Foo.recipe.yaml"]; _format := YAML;
                _contents := PDict {[ "Input" := PDict ∅ ]}; _trusted := UNTESTED;
                _result := {| report_file_path :=
                                ["recipe_reports"; "report_251103_1200_Foo.recipe.yaml_2.plist"];
                              report_contents := None |} |}).
  destruct (report_file_name "Foo" None w res.2 r) as (k & Hk & _ & _).
  - vm_compute. reflexivity.
  - exists r, k. split; [vm_compute; reflexivity|]. split; [reflexivity|exact Hk].
Defined.

End MoreExamples.
